(** * Presentation assistant bot: a shallow embedding of [config.py]

    The program is a chat bot that assembles slide decks.  Its own code is
    three classes: [Config] (process configuration), [PresentationManager]
    (deck construction and the three append operations) and
    [PresentationBot] (the handlers, of which [handle_document] ingests an
    uploaded file).

    The objects of the slide library the program calls into are modelled
    as plain data: a presentation is its list of slide layouts and its list
    of slides, a slide is the list of placeholders cloned from its layout
    plus the pictures added to it.  Strings are the UTF-8 bytes of the
    program's strings.  The file system is a finite map from path strings,
    in the normal form [pathlib] gives them, to entries; the process
    environment is a finite map from names to values.  Mutation and
    exceptions are explicit: a computation takes the state it mutates and
    returns the state it leaves behind together with either a value or the
    exception raised. *)

From Stdlib Require Import ZArith String List.
From Stdlib.Strings Require Import Byte Ascii.
From stdpp Require Import gmap strings list fin_maps pretty.

Open Scope string_scope.
Open Scope Z_scope.

(** ** Exceptions and the state-and-exception monad *)

(** The exceptions that can arise in the modelled code.  [FileNotFoundError]
    carries the message the program formats; the failures raised inside the
    slide library while it reads an image are collapsed into
    [UnidentifiedImageError], the failures of the chat transport into
    [NetworkError], those of the storage into [OSError].  Opening a package
    raises [FileNotFoundError] for a path that does not exist and
    [IsADirectoryError] for a directory; what the package reader raises on
    a file that holds no presentation is collapsed into [BadZipFile]. *)
Inductive exn : Type :=
  | IndexError
  | AttributeError
  | KeyError
  | TypeError
  | FileNotFoundError (msg : string)
  | IsADirectoryError
  | OSError
  | NetworkError
  | BadZipFile
  | UnidentifiedImageError.

Inductive outcome (A : Type) : Type :=
  | Ok (a : A)
  | Raise (e : exn).
Arguments Ok {A} a.
Arguments Raise {A} e.

(** A computation over a mutable state [S]: the state after the call is
    returned also when the call raises, since whatever was mutated before
    the exception stays mutated. *)
Definition M (S A : Type) : Type := S -> S * outcome A.

Definition ret {S A} (a : A) : M S A := fun s => (s, Ok a).

Definition raise {S A} (e : exn) : M S A := fun s => (s, Raise e).

Definition bind {S A B} (m : M S A) (k : A -> M S B) : M S B :=
  fun s =>
    match m s with
    | (s', Ok a) => k a s'
    | (s', Raise e) => (s', Raise e)
    end.

Definition modify {S} (f : S -> S) : M S unit := fun s => (f s, Ok tt).

(** [try: body except Exception: handler] *)
Definition try_except {S A} (body : M S A) (handler : exn -> M S A) : M S A :=
  fun s =>
    match body s with
    | (s', Ok a) => (s', Ok a)
    | (s', Raise e) => handler e s'
    end.

(** Lifts a result that reads the state without changing it. *)
Definition lift {S A} (f : S -> outcome A) : M S A := fun s => (s, f s).

Declare Scope py_scope.
Delimit Scope py_scope with py.
Notation "x <- c1 ;; c2" := (bind c1 (fun x => c2))
  (at level 100, c1 at next level, right associativity) : py_scope.
Notation "c1 ;; c2" := (bind c1 (fun _ => c2))
  (at level 100, right associativity) : py_scope.

(** [for x in xs: body x] *)
Fixpoint for_each {S A} (xs : list A) (body : A -> M S unit) : M S unit :=
  match xs with
  | [] => ret tt
  | x :: rest => (body x ;; for_each rest body)%py
  end.

(** Truth value of a Python [str]: the empty string is false. *)
Definition truthy (s : string) : bool :=
  match s with
  | EmptyString => false
  | String _ _ => true
  end.

(** ** The file system and the process environment *)

Inductive entry : Type :=
  | Dir
  | File (data : list byte).

(** [s.split(sep)] for a separator of one character. *)
Fixpoint split_on (sep : ascii) (s : string) : list string :=
  match s with
  | EmptyString => [EmptyString]
  | String c rest =>
      if Ascii.eqb c sep then EmptyString :: split_on sep rest
      else
        match split_on sep rest with
        | [] => [String c EmptyString]
        | part :: parts => String c part :: parts
        end
  end.

(** The components [pathlib] keeps of a path string: it is cut at the
    slashes, and empty components and [.] are dropped ([..] is kept). *)
Definition path_parts (s : string) : list string :=
  List.filter (fun part => negb (String.eqb part "" || String.eqb part "."))
    (split_on "/" s).

(** The root of a path string: one slash for an absolute path, two when
    the string starts with exactly two. *)
Definition path_root (s : string) : string :=
  if String.prefix "//" s && negb (String.prefix "///" s) then "//"
  else if String.prefix "/" s then "/"
  else "".

(** [str(path)] of a path with that root and those components; the path
    without root and components is the current directory. *)
Definition path_render (root : string) (parts : list string) : string :=
  match root, parts with
  | EmptyString, [] => "."
  | _, _ => root ++ String.concat "/" parts
  end.

(** [str(Path(s))] *)
Definition Path_str (s : string) : string :=
  path_render (path_root s) (path_parts s).

(** [str(Path(base) / name)]: an absolute right operand replaces the left
    one, otherwise its components follow those of the left one. *)
Definition Path_div (base name : string) : string :=
  if String.prefix "/" name then Path_str name
  else path_render (path_root base) (path_parts base ++ path_parts name).

(** What is at the path [q] (a string in normal form): the entry of the
    file system, and a directory for the current directory and the root,
    which always exist. *)
Definition entry_at (fs : gmap string entry) (q : string) : option entry :=
  match fs !! q with
  | Some e => Some e
  | None => if String.eqb q "." || String.eqb q "/" then Some Dir else None
  end.

(** [path.exists()] for the path whose string is [q]. *)
Definition Path_exists (fs : gmap string entry) (q : string) : bool :=
  match entry_at fs q with
  | Some _ => true
  | None => false
  end.

(** [os.getenv(key, default)] *)
Definition getenv (environ : gmap string string) (key default : string) : string :=
  match environ !! key with
  | Some v => v
  | None => default
  end.

(** ** class Config *)

Module Config.

Definition API_TOKEN (environ : gmap string string) : string :=
  getenv environ "API_TOKEN" "7567293644:AAHVSPgyYAPt_NaUahhdID2njMK-FrtxaRg".

Definition MAX_FILE_SIZE : Z := 500 * 1024 * 1024.

Definition DOWNLOAD_PATH : string := "downloads".

Definition TEMPLATES_PATH : string := "templates".

End Config.

(** The token the bot is constructed with: [Bot(token=Config.API_TOKEN)]. *)
Definition PresentationBot_token (environ : gmap string string) : string :=
  Config.API_TOKEN environ.

(** ** The slide library's objects *)

(** A paragraph of a text frame: its text and the font size set on it, in
    English Metric Units, if any. *)
Record Paragraph : Type := {
  p_text : string;
  p_font_size : option Z
}.

(** A placeholder shape of a slide, identified by the [idx] it inherits
    from the layout placeholder it was cloned from. *)
Record Placeholder : Type := {
  ph_idx : nat;
  text_frame : list Paragraph
}.

Record Picture : Type := {
  pic_blob : list byte;
  pic_left : Z;
  pic_top : Z
}.

(** A slide layout, as far as the program depends on it: the [idx] values
    of the placeholders a new slide inherits.  The title placeholder is the
    one with [idx] 0. *)
Record SlideLayout : Type := {
  layout_name : string;
  layout_placeholders : list nat
}.

Record Slide : Type := {
  slide_layout : SlideLayout;
  placeholders : list Placeholder;
  pictures : list Picture
}.

Record Presentation : Type := {
  slide_layouts : list SlideLayout;
  slides : list Slide
}.

(** [Pt(n)] and [Inches(n)] in English Metric Units. *)
Definition Pt (n : Z) : Z := n * 12700.
Definition Inches (n : Z) : Z := n * 914400.

(** The text frame of a freshly cloned placeholder holds one empty
    paragraph. *)
Definition empty_paragraph : Paragraph :=
  {| p_text := ""; p_font_size := None |}.

Definition clone_placeholder (idx : nat) : Placeholder :=
  {| ph_idx := idx; text_frame := [empty_paragraph] |}.

(** The slide [add_slide] creates from a layout, before anything is
    written to it. *)
Definition new_slide (layout : SlideLayout) : Slide :=
  {| slide_layout := layout;
     placeholders := map clone_placeholder (layout_placeholders layout);
     pictures := [] |}.

(** [placeholders[idx]]: the first placeholder with that [idx]. *)
Fixpoint find_placeholder (idx : nat) (phs : list Placeholder) : option Placeholder :=
  match phs with
  | [] => None
  | ph :: rest =>
      if Nat.eqb (ph_idx ph) idx then Some ph else find_placeholder idx rest
  end.

(** Replaces the text frame of the first placeholder with that [idx];
    [None] when the slide has no such placeholder. *)
Fixpoint update_placeholder (idx : nat) (f : list Paragraph -> list Paragraph)
    (phs : list Placeholder) : option (list Placeholder) :=
  match phs with
  | [] => None
  | ph :: rest =>
      if Nat.eqb (ph_idx ph) idx
      then Some ({| ph_idx := ph_idx ph; text_frame := f (text_frame ph) |} :: rest)
      else option_map (cons ph) (update_placeholder idx f rest)
  end.

(** The escape the slide library stores for a control character:
    [_xHHHH_] with its code in four upper-case hexadecimal digits. *)
Definition hex_digit (n : nat) : ascii :=
  nth n ["0"; "1"; "2"; "3"; "4"; "5"; "6"; "7"; "8"; "9";
         "A"; "B"; "C"; "D"; "E"; "F"]%char "0"%char.

Definition escape_ctrl (c : ascii) : string :=
  "_x00" ++ String (hex_digit (nat_of_ascii c / 16))
              (String (hex_digit (nat_of_ascii c mod 16)) "_").

(** [paragraph.text] after [paragraph.text = s]: a line feed or vertical
    tab becomes a line break, which reads back as a vertical tab; the other
    control characters except the tab are stored as their escapes; all
    other characters are stored as they are. *)
Fixpoint paragraph_text (s : string) : string :=
  match s with
  | EmptyString => EmptyString
  | String c rest =>
      let n := nat_of_ascii c in
      (if Nat.eqb n 10 || Nat.eqb n 11 then String (ascii_of_nat 11) ""
       else if Nat.ltb n 32 && negb (Nat.eqb n 9) then escape_ctrl c
       else String c "")
      ++ paragraph_text rest
  end.

(** [shape.text = s]: the text frame is emptied and gets one paragraph per
    line of [s]. *)
Definition set_text (s : string) (tf : list Paragraph) : list Paragraph :=
  map (fun line => {| p_text := paragraph_text line; p_font_size := None |})
    (split_on (ascii_of_nat 10) s).

(** [shape.text]: the paragraphs' texts, one per line. *)
Definition get_text (tf : list Paragraph) : string :=
  String.concat (String (Ascii.ascii_of_nat 10) "") (map p_text tf).

(** [slide.shapes.title.text], [None] when the slide has no title
    placeholder. *)
Definition slide_title (s : Slide) : option string :=
  option_map (fun ph => get_text (text_frame ph)) (find_placeholder 0 (placeholders s)).

(** [len(prs.slides)] *)
Definition slide_count (prs : Presentation) : nat := length (slides prs).

(** [Presentation()]: the library's bundled default template, eleven
    layouts and no slide.  Date, footer and slide-number placeholders are
    not inherited by a slide and are left out. *)
Definition default_layouts : list SlideLayout :=
  [ {| layout_name := "Title Slide"; layout_placeholders := [0; 1]%nat |};
    {| layout_name := "Title and Content"; layout_placeholders := [0; 1]%nat |};
    {| layout_name := "Section Header"; layout_placeholders := [0; 1]%nat |};
    {| layout_name := "Two Content"; layout_placeholders := [0; 1; 2]%nat |};
    {| layout_name := "Comparison"; layout_placeholders := [0; 1; 2; 3; 4]%nat |};
    {| layout_name := "Title Only"; layout_placeholders := [0]%nat |};
    {| layout_name := "Blank"; layout_placeholders := [] |};
    {| layout_name := "Content with Caption"; layout_placeholders := [0; 1; 2]%nat |};
    {| layout_name := "Picture with Caption"; layout_placeholders := [0; 1; 2]%nat |};
    {| layout_name := "Title and Vertical Text"; layout_placeholders := [0; 1]%nat |};
    {| layout_name := "Vertical Title and Text"; layout_placeholders := [0; 1]%nat |} ].

Definition Presentation_new : Presentation :=
  {| slide_layouts := default_layouts; slides := [] |}.

(** *** Mutating a presentation *)

(** [prs.slide_layouts[i]] *)
Definition slide_layouts_getitem (i : nat) : M Presentation SlideLayout :=
  fun prs =>
    match slide_layouts prs !! i with
    | Some layout => (prs, Ok layout)
    | None => (prs, Raise IndexError)
    end.

(** [prs.slides.add_slide(layout)]: the new slide is appended at once; the
    value returned stands for the reference to it, its position in
    [prs.slides]. *)
Definition add_slide (layout : SlideLayout) : M Presentation nat :=
  fun prs =>
    ({| slide_layouts := slide_layouts prs;
        slides := slides prs ++ [new_slide layout] |},
     Ok (length (slides prs))).

(** Applies a mutation to the slide object behind reference [ref]; a
    mutation that raises leaves the slide as it was.  References come from
    [add_slide] and are always in range. *)
Definition with_slide (ref : nat) (f : Slide -> outcome Slide) : M Presentation unit :=
  fun prs =>
    match slides prs !! ref with
    | Some s =>
        match f s with
        | Ok s' =>
            ({| slide_layouts := slide_layouts prs;
                slides := <[ref := s']> (slides prs) |}, Ok tt)
        | Raise e => (prs, Raise e)
        end
    | None => (prs, Raise IndexError)
    end.

(** [slide.shapes.title.text = text]: [shapes.title] is [None] on a slide
    without title placeholder, and the assignment then raises. *)
Definition shapes_title_set_text (ref : nat) (text : string) : M Presentation unit :=
  with_slide ref (fun s =>
    match update_placeholder 0 (set_text text) (placeholders s) with
    | Some phs =>
        Ok {| slide_layout := slide_layout s; placeholders := phs; pictures := pictures s |}
    | None => Raise AttributeError
    end).

(** [slide.placeholders[idx]], checked for presence only. *)
Definition placeholders_getitem (ref idx : nat) : M Presentation unit :=
  with_slide ref (fun s =>
    match find_placeholder idx (placeholders s) with
    | Some _ => Ok s
    | None => Raise KeyError
    end).

(** A mutation [f] of the text frame of [slide.placeholders[idx]]. *)
Definition placeholders_update (ref idx : nat) (f : list Paragraph -> list Paragraph)
    : M Presentation unit :=
  with_slide ref (fun s =>
    match update_placeholder idx f (placeholders s) with
    | Some phs =>
        Ok {| slide_layout := slide_layout s; placeholders := phs; pictures := pictures s |}
    | None => Raise KeyError
    end).

(** The body of the loop over the bullet points:
    [p = tf.add_paragraph(); p.text = point; p.font.size = size]. *)
Definition add_paragraph_with (point : string) (size : Z) (tf : list Paragraph)
    : list Paragraph :=
  tf ++ [{| p_text := paragraph_text point; p_font_size := Some size |}].

(** ** The chat transport and the handler's world *)

(** [message.document]: [file_size] is optional in the transport's type. *)
Record Document : Type := {
  file_id : string;
  file_name : string;
  file_size : option Z
}.

Record Message : Type := {
  from_user_id : Z;
  document : option Document
}.

(** The answers [handle_document] sends with [message.answer]. *)
Inductive Reply : Type :=
  | FileTooLarge (max_mb : Z)
  | PresentationLoaded (n_slides : nat)
  | ProcessingError.

(** The requests made to the chat service. *)
Inductive NetCall : Type :=
  | GetFile (id : string)
  | DownloadFile (remote_path : string).

(** What the outside does during one call of the handler: the answer to
    [get_file], whether the storage accepts opening a file for writing, the
    bytes the download delivers and whether it then completes or breaks
    off. *)
Record Telegram : Type := {
  get_file_result : option string;
  storage_ok : bool;
  download_data : list byte;
  download_completes : bool
}.

(** Everything the handler can read or change: the files, the requests
    made so far and the answers sent so far. *)
Record World : Type := {
  fs : gmap string entry;
  net : list NetCall;
  sent : list Reply
}.

(** [await message.answer(...)].  The answer is taken to reach the chat
    service: a failure of the service while an answer is sent, which would
    make the call raise, is outside the model. *)
Definition answer (r : Reply) : M World unit :=
  modify (fun w => {| fs := fs w; net := net w; sent := sent w ++ [r] |}).

(** [await self.bot.get_file(file_id)], returning the remote path. *)
Definition bot_get_file (tg : Telegram) (id : string) : M World string :=
  fun w =>
    let w' := {| fs := fs w; net := net w ++ [GetFile id]; sent := sent w |} in
    match get_file_result tg with
    | Some remote => (w', Ok remote)
    | None => (w', Raise NetworkError)
    end.

(** [aiofiles.open(path, 'wb')]: the file is created, or truncated if it
    exists. *)
Definition open_wb (tg : Telegram) (path : string) : M World unit :=
  fun w =>
    if storage_ok tg then
      match fs w !! path with
      | Some Dir => (w, Raise IsADirectoryError)
      | _ => ({| fs := <[path := File []]> (fs w); net := net w; sent := sent w |}, Ok tt)
      end
    else (w, Raise OSError).

(** [await self.bot.download_file(remote, f)] with [f] the file opened
    through [aiofiles]: the transport reads the stream and calls [f.write]
    on every chunk without awaiting it, and a write of [aiofiles] that is
    not awaited does nothing.  So the stream is consumed, and raises where
    it breaks off, but no byte reaches the file at [path]. *)
Definition bot_download_file (tg : Telegram) (remote path : string) : M World unit :=
  fun w =>
    let w' := {| fs := fs w;
                 net := net w ++ [DownloadFile remote];
                 sent := sent w |} in
    if download_completes tg then (w', Ok tt) else (w', Raise NetworkError).

(** [a > b] where [a] may be [None]: Python refuses the comparison. *)
Definition py_gt (a : option Z) (b : Z) : outcome bool :=
  match a with
  | Some x => Ok (x >? b)
  | None => Raise TypeError
  end.

Section Library.

(** The slide library's package reader, applied to the bytes of a file:
    the presentation it holds, or [None] when the bytes are no package of
    the expected type.  An empty file is no package, so for the library as
    it is [load_pptx [] = None]; the statements that depend on it say so. *)
Variable load_pptx : list byte -> option Presentation.

(** Whether the imaging library recognises the bytes as an image. *)
Variable is_image : list byte -> bool.

(** [Presentation(path)] for a [Path] object, which the slide library
    hands to the zip reader as it is. *)
Definition Presentation_open (files : gmap string entry) (path : string)
    : outcome Presentation :=
  match entry_at files path with
  | Some (File data) =>
      match load_pptx data with
      | Some prs => Ok prs
      | None => Raise BadZipFile
      end
  | Some Dir => Raise IsADirectoryError
  | None =>
      Raise (FileNotFoundError ("[Errno 2] No such file or directory: '" ++ path ++ "'"))
  end.

(** [slide.shapes.add_picture(path, left, top)] *)
Definition add_picture (files : gmap string entry) (ref : nat) (path : string)
    (left top : Z) : M Presentation unit :=
  with_slide ref (fun s =>
    match entry_at files path with
    | Some (File data) =>
        if is_image data then
          Ok {| slide_layout := slide_layout s;
                placeholders := placeholders s;
                pictures := pictures s ++
                  [{| pic_blob := data; pic_left := left; pic_top := top |}] |}
        else Raise UnidentifiedImageError
    | Some Dir => Raise IsADirectoryError
    | None => Raise (FileNotFoundError path)
    end).

(** *** class PresentationManager *)

Definition create_presentation (files : gmap string entry)
    (template_name : option string) : outcome Presentation :=
  match template_name with
  | Some name =>
      if truthy name then
        let template_path := Path_div Config.TEMPLATES_PATH name in
        if Path_exists files template_path then
          Presentation_open files template_path
        else
          Raise (FileNotFoundError ("Шаблон " ++ name ++ " не найден."))
      else Ok Presentation_new
  | None => Ok Presentation_new
  end.

Definition add_title_slide (title subtitle : string) : M Presentation unit :=
  (layout <- slide_layouts_getitem 0 ;;
   title_slide <- add_slide layout ;;
   shapes_title_set_text title_slide title ;;
   if truthy subtitle then
     placeholders_update title_slide 1 (set_text subtitle)
   else ret tt)%py.

Definition add_content_slide (title : string) (content : list string)
    : M Presentation unit :=
  (layout <- slide_layouts_getitem 1 ;;
   bullet_slide <- add_slide layout ;;
   shapes_title_set_text bullet_slide title ;;
   placeholders_getitem bullet_slide 1 ;;
   for_each content (fun point =>
     placeholders_update bullet_slide 1 (add_paragraph_with point (Pt 18))))%py.

Definition add_image_slide (files : gmap string entry) (title image_path : string)
    : M Presentation unit :=
  (layout <- slide_layouts_getitem 5 ;;
   img_slide <- add_slide layout ;;
   shapes_title_set_text img_slide title ;;
   let img_path := Path_str image_path in
   if Path_exists files img_path then
     add_picture files img_slide img_path (Inches 1) (Inches 1)
   else
     raise (FileNotFoundError ("Изображение по пути " ++ image_path ++ " не найдено.")))%py.

(** *** class PresentationBot *)

Definition handle_document (tg : Telegram) (message : Message) : M World unit :=
  match document message with
  | None => ret tt
  | Some doc =>
      (too_large <- lift (fun _ => py_gt (file_size doc) Config.MAX_FILE_SIZE) ;;
       if too_large : bool then
         answer (FileTooLarge (Config.MAX_FILE_SIZE / (1024 * 1024)))
       else
         try_except
           (file <- bot_get_file tg (file_id doc) ;;
            let file_path :=
              Path_div Config.DOWNLOAD_PATH
                (pretty (from_user_id message) ++ "_" ++ file_name doc) in
            open_wb tg file_path ;;
            bot_download_file tg file file_path ;;
            prs <- lift (fun w => Presentation_open (fs w) file_path) ;;
            answer (PresentationLoaded (slide_count prs)))
           (fun _ => answer ProcessingError))%py
  end.

End Library.

(** ** Vocabulary of the statements *)

(** Whether a slide created from [layout] has a placeholder with that
    [idx]. *)
Definition has_placeholder (idx : nat) (layout : SlideLayout) : bool :=
  existsb (fun i => Nat.eqb i idx) (layout_placeholders layout).

(** The deck [prs'] is [prs] with one more slide, whose title reads
    [title]. *)
Definition title_slide_appended (prs prs' : Presentation) (title : string) : Prop :=
  slide_count prs' = S (slide_count prs)
  /\ slide_title <$> last (slides prs') = Some (Some title).

(** [prs] with the slide [s] appended. *)
Definition append_slide (prs : Presentation) (s : Slide) : Presentation :=
  {| slide_layouts := slide_layouts prs; slides := slides prs ++ [s] |}.

(** The slide made from [layout] with the placeholders [phs]. *)
Definition slide_with (layout : SlideLayout) (phs : list Placeholder) : Slide :=
  {| slide_layout := layout; placeholders := phs; pictures := [] |}.

(** Where [handle_document] stores the upload of [doc] sent in
    [message]. *)
Definition upload_path (message : Message) (doc : Document) : string :=
  Path_div Config.DOWNLOAD_PATH
    (pretty (from_user_id message) ++ "_" ++ file_name doc).

(** The result of a run of [handle_document] that gave up with the generic
    error answer, having made the requests [calls] and left the files
    [files]. *)
Definition gave_up (w : World) (files : gmap string entry) (calls : list NetCall)
    : World * outcome unit :=
  ({| fs := files; net := net w ++ calls; sent := sent w ++ [ProcessingError] |}, Ok tt).

(** The handler turned the upload down as too large: that answer was sent. *)
Definition rejected_too_large (w w' : World) : Prop :=
  exists mb, sent w' = (sent w ++ [FileTooLarge mb])%list.

(** The handler went on to fetch the upload: it asked the chat service for
    the file. *)
Definition proceeds_to_ingestion (doc : Document) (w w' : World) : Prop :=
  exists calls, net w' = (net w ++ GetFile (file_id doc) :: calls)%list.

(** A deck whose first layout has no placeholder at all, as a template
    that starts with a blank layout gives. *)
Definition blank_first_deck : Presentation :=
  {| slide_layouts := [{| layout_name := "Blank"; layout_placeholders := [] |}];
     slides := [] |}.

(** A sample upload: a user, a document named [deck.pptx], the two work
    directories, and a download that breaks off after two bytes. *)
Definition sample_document (size : option Z) : Document :=
  {| file_id := "F1"; file_name := "deck.pptx"; file_size := size |}.

Definition sample_message (size : option Z) : Message :=
  {| from_user_id := 42; document := Some (sample_document size) |}.

(** The same document sent by another user. *)
Definition other_user_message (size : option Z) : Message :=
  {| from_user_id := 43; document := Some (sample_document size) |}.

(** Two documents of one user whose names differ by a doubled slash. *)
Definition nested_document : Document :=
  {| file_id := "F3"; file_name := "a/b.pptx"; file_size := Some 10 |}.

Definition doubled_slash_document : Document :=
  {| file_id := "F4"; file_name := "a//b.pptx"; file_size := Some 10 |}.

Definition sample_world : World :=
  {| fs := <["downloads" := Dir]> (<["templates" := Dir]> ∅);
     net := [];
     sent := [] |}.

Definition broken_download : Telegram :=
  {| get_file_result := Some "documents/file_1.pptx";
     storage_ok := true;
     download_data := ["P"%byte; "K"%byte];
     download_completes := false |}.

(** The first layout of the default template. *)
Definition title_slide_layout : SlideLayout :=
  {| layout_name := "Title Slide"; layout_placeholders := [0; 1]%nat |}.

(** A template catalog with one entry, and a package reader that finds
    the blank-first deck in every file that is not empty. *)
Definition sample_catalog : gmap string entry :=
  <["templates/business.pptx" := File ["P"%byte; "K"%byte]]> (fs sample_world).

Definition sample_reader (data : list byte) : option Presentation :=
  match data with
  | [] => None
  | _ => Some blank_first_deck
  end.

(** A download that completes, of the same two bytes. *)
Definition complete_download : Telegram :=
  {| get_file_result := Some "documents/file_1.pptx";
     storage_ok := true;
     download_data := ["P"%byte; "K"%byte];
     download_completes := true |}.

(** ** Start-up, menus and callback handlers *)

(** [path.mkdir(parents=True, exist_ok=True)] for a path of one component:
    a directory that is there is accepted, a file in its place is not. *)
Definition mkdir_exist_ok (path : string) : M (gmap string entry) unit :=
  fun files =>
    match files !! path with
    | Some Dir => (files, Ok tt)
    | Some (File _) => (files, Raise OSError)
    | None => (<[path := Dir]> files, Ok tt)
    end.

(** The two [mkdir] calls in the body of [class Config], run when the
    module is loaded. *)
Definition Config_mkdirs : M (gmap string entry) unit :=
  (mkdir_exist_ok Config.DOWNLOAD_PATH ;;
   mkdir_exist_ok Config.TEMPLATES_PATH)%py.

Record InlineKeyboardButton : Type := {
  text : string;
  callback_data : string
}.

Record InlineKeyboardMarkup : Type := {
  inline_keyboard : list (list InlineKeyboardButton)
}.

(** One call of [answer(text, reply_markup=...)]. *)
Record Answer : Type := {
  answer_text : string;
  reply_markup : option InlineKeyboardMarkup
}.

(** [callback.from_user.id] and [callback.data], for a query that carries
    data: a button press always does. *)
Record CallbackQuery : Type := {
  callback_from_user_id : Z;
  data : string
}.

(** What the callback handlers read and change: the files and the answers
    sent. *)
Record Chat : Type := {
  chat_files : gmap string entry;
  chat_answers : list Answer
}.

Definition newline : string := String (Ascii.ascii_of_nat 10) "".

(** [await callback.message.answer(t, reply_markup=markup)], taken to
    reach the chat service like [answer] above. *)
Definition chat_answer (t : string) (markup : option InlineKeyboardMarkup)
    : M Chat unit :=
  modify (fun c =>
    {| chat_files := chat_files c;
       chat_answers := chat_answers c ++ [{| answer_text := t; reply_markup := markup |}] |}).

Definition get_start_keyboard : InlineKeyboardMarkup :=
  {| inline_keyboard :=
       [ [{| text := "📤 Загрузить презентацию"; callback_data := "upload_presentation" |}];
         [{| text := "🎨 Выбрать шаблон"; callback_data := "choose_template" |}];
         [{| text := "✍️ Создать с нуля"; callback_data := "create_new" |}];
         [{| text := "❓ Помощь"; callback_data := "help" |}] ] |}.

Definition get_edit_keyboard : InlineKeyboardMarkup :=
  {| inline_keyboard :=
       [ [{| text := "➕ Добавить слайд"; callback_data := "add_slide" |}];
         [{| text := "🖼 Добавить изображение"; callback_data := "add_image" |}];
         [{| text := "📝 Изменить текст"; callback_data := "edit_text" |}];
         [{| text := "🎨 Изменить дизайн"; callback_data := "change_design" |}];
         [{| text := "💾 Сохранить"; callback_data := "save" |}] ] |}.

Definition cmd_start : M Chat unit :=
  chat_answer
    ("👋 Добро пожаловать в Presentation Assistant Bot!" ++ newline ++ newline ++
     "Я помогу вам создать или отредактировать презентацию. Выберите действие:")
    (Some get_start_keyboard).

Definition handle_callback_queries (callback : CallbackQuery) : M Chat unit :=
  if String.eqb (data callback) "upload_presentation" then
    chat_answer "Вы выбрали загрузку презентации. Пожалуйста, загрузите файл." None
  else if String.eqb (data callback) "choose_template" then
    chat_answer "Выберите шаблон для вашей презентации." None
  else if String.eqb (data callback) "create_new" then
    chat_answer "Создание новой презентации." None
  else if String.eqb (data callback) "help" then
    chat_answer "Это бот для создания и редактирования презентаций." None
  else
    chat_answer "Неверная команда. Попробуйте снова." None.

(** The scan of [s.replace(old, "")]: [skip] characters of an occurrence
    found are still to be dropped; outside an occurrence the scan looks
    for the next one at the current position. *)
Fixpoint remove_from (old : string) (skip : nat) (s : string) : string :=
  match s with
  | EmptyString => EmptyString
  | String c rest =>
      match skip with
      | S k => remove_from old k rest
      | O =>
          if String.prefix old s
          then remove_from old (String.length old - 1) rest
          else String c (remove_from old 0 rest)
      end
  end.

(** [s.replace(old, "")]: every occurrence of [old], found from left to
    right without overlap, is removed; an empty [old] changes nothing. *)
Definition str_remove (old s : string) : string :=
  match old with
  | EmptyString => s
  | String _ _ => remove_from old 0 s
  end.

(** Whether [old] occurs in [s]. *)
Fixpoint occurs (old s : string) : bool :=
  match s with
  | EmptyString => String.prefix old s
  | String _ rest => String.prefix old s || occurs old rest
  end.

(** The directory of a path string in normal form: what precedes its last
    slash, the current directory when it has none. *)
Fixpoint before_last_slash (s : string) : option string :=
  match s with
  | EmptyString => None
  | String c rest =>
      match before_last_slash rest with
      | Some dir => Some (String c dir)
      | None => if Ascii.eqb c "/" then Some EmptyString else None
      end
  end.

Definition path_parent (s : string) : string :=
  match before_last_slash s with
  | Some EmptyString => "/"
  | Some dir => dir
  | None => "."
  end.

Section Callbacks.

Variable load_pptx : list byte -> option Presentation.

(** The slide library's package writer: the bytes [prs.save] stores. *)
Variable save_pptx : Presentation -> list byte.

(** Whether the storage accepts the write of [prs.save]. *)
Variable storage_accepts : bool.

(** [prs.save(path)].  A write the storage refuses raises
    [FileNotFoundError], with the message of the operating system, when the
    directory of [path] is missing, and another [OSError] otherwise. *)
Definition Presentation_save (prs : Presentation) (path : string) : M Chat unit :=
  fun c =>
    if storage_accepts then
      match chat_files c !! path with
      | Some Dir => (c, Raise IsADirectoryError)
      | _ =>
          ({| chat_files := <[path := File (save_pptx prs)]> (chat_files c);
              chat_answers := chat_answers c |}, Ok tt)
      end
    else
      match entry_at (chat_files c) (path_parent path) with
      | Some _ => (c, Raise OSError)
      | None =>
          (c, Raise (FileNotFoundError
                       ("[Errno 2] No such file or directory: '" ++ path ++ "'")))
      end.

Definition handle_template_choice (callback : CallbackQuery) : M Chat unit :=
  let template_name := str_remove "template_" (data callback) in
  try_except
    (prs <- lift (fun c =>
              create_presentation load_pptx (chat_files c)
                (Some (template_name ++ ".pptx"))) ;;
     let temp_path :=
       Path_div Config.DOWNLOAD_PATH
         (pretty (callback_from_user_id callback) ++ "_temp.pptx") in
     Presentation_save prs temp_path ;;
     chat_answer
       ("✅ Шаблон выбран успешно! Теперь вы можете:" ++ newline ++
        "1. Добавить контент" ++ newline ++
        "2. Изменить дизайн" ++ newline ++
        "3. Сохранить презентацию")
       (Some get_edit_keyboard))%py
    (fun e =>
       match e with
       | FileNotFoundError msg => chat_answer ("❌ Ошибка: " ++ msg) None
       | _ => chat_answer "❌ Произошла ошибка при создании презентации" None
       end).

(** The two callback registrations of [register_handlers]: the first
    registered handler whose filter accepts the query handles it. *)
Definition dispatch_callback_query (callback : CallbackQuery) : M Chat unit :=
  if String.prefix "template_" (data callback)
  then handle_template_choice callback
  else handle_callback_queries callback.

End Callbacks.

(** Where [handle_template_choice] saves the deck of user [uid]. *)
Definition temp_path_of (uid : Z) : string :=
  Path_div Config.DOWNLOAD_PATH (pretty uid ++ "_temp.pptx").

(** The callback data of all buttons of a keyboard. *)
Definition keyboard_data (kb : InlineKeyboardMarkup) : list string :=
  map callback_data (concat (inline_keyboard kb)).

(** The answer every unrecognised callback gets. *)
Definition invalid_command : Answer :=
  {| answer_text := "Неверная команда. Попробуйте снова."; reply_markup := None |}.

(** The paragraph [add_content_slide] makes of a bullet. *)
Definition bullet_paragraph (point : string) : Paragraph :=
  {| p_text := point; p_font_size := Some (Pt 18) |}.

(** The same paragraph as the slide library stores it. *)
Definition stored_paragraph (point : string) : Paragraph :=
  {| p_text := paragraph_text point; p_font_size := Some (Pt 18) |}.

(** What an append operation may do to a deck, whatever its outcome [r]:
    the layouts stay, the slides already there stay, at most one slide is
    added at the end, and exactly one when the call returns normally. *)
Definition appends_at_most_one (prs : Presentation) (res : Presentation * outcome unit)
    : Prop :=
  slide_layouts (fst res) = slide_layouts prs
  /\ (slides (fst res) = slides prs
      \/ exists s, slides (fst res) = (slides prs ++ [s])%list)
  /\ (snd res = Ok tt -> exists s, slides (fst res) = (slides prs ++ [s])%list).

(** The text of the placeholder with that [idx], if the slide has one. *)
Definition placeholder_text (idx : nat) (s : Slide) : option string :=
  option_map (fun ph => get_text (text_frame ph)) (find_placeholder idx (placeholders s)).

(** Whether the character [c] occurs in [s]. *)
Fixpoint has_char (c : Ascii.ascii) (s : string) : bool :=
  match s with
  | EmptyString => false
  | String a rest => Ascii.eqb a c || has_char c rest
  end.

(** A plain file name: one path component, neither empty nor [.] nor
    [..]. *)
Definition file_name_like (s : string) : bool :=
  negb (has_char "/" s)
  && negb (String.eqb s "" || String.eqb s "." || String.eqb s "..").

(** The entry the template catalog holds under a name: the one directly
    inside the template directory. *)
Definition catalog_entry (files : gmap string entry) (name : string) : option entry :=
  files !! ("templates/" ++ name).

(** Whether [s] holds none of the characters the slide library stores as
    escapes: the control characters other than tab, line feed and vertical
    tab. *)
Fixpoint no_escape (s : string) : bool :=
  match s with
  | EmptyString => true
  | String c rest =>
      let n := nat_of_ascii c in
      (Nat.leb 32 n || Nat.eqb n 9 || Nat.eqb n 10 || Nat.eqb n 11) && no_escape rest
  end.

(** The UTF-8 forms of U+FFFE and U+FFFF, the two characters above the
    space that XML text cannot hold. *)
Definition U_FFFE : string :=
  String (ascii_of_nat 239) (String (ascii_of_nat 191) (String (ascii_of_nat 190) "")).
Definition U_FFFF : string :=
  String (ascii_of_nat 239) (String (ascii_of_nat 191) (String (ascii_of_nat 191) "")).

(** Text the slide library accepts: it holds no character XML forbids.
    (Control characters are escaped before they reach the XML.)  On other
    text the library's text setters raise [ValueError], which is outside
    the model: the statements below that say a call returns normally are
    about texts that satisfy [xml_text]. *)
Definition xml_text (s : string) : bool :=
  negb (occurs U_FFFE s) && negb (occurs U_FFFF s).

(** Text that a shape gives back as it was written: accepted and without
    escaped character. *)
Definition kept_text (s : string) : bool := no_escape s && xml_text s.

(** Text that a paragraph gives back as it was written: as for a shape,
    and without line feed, which a paragraph turns into a line break. *)
Definition kept_line (s : string) : bool :=
  kept_text s && negb (has_char (ascii_of_nat 10) s).

(** What [shape.text] reads after [shape.text = s]. *)
Definition stored_text (s : string) : string := get_text (set_text s []).

(** A title with a control character: [a], U+0001, [b]. *)
Definition control_title : string :=
  String "a" (String (ascii_of_nat 1) (String "b" "")).

(** A file system that holds a deck outside the template directory. *)
Definition outside_catalog : gmap string entry :=
  <["/srv/decks/plan.pptx" := File ["P"%byte; "K"%byte]]> (fs sample_world).

(** The chat [c] after one more answer. *)
Definition said (c : Chat) (t : string) (markup : option InlineKeyboardMarkup) : Chat :=
  {| chat_files := chat_files c;
     chat_answers := chat_answers c ++ [{| answer_text := t; reply_markup := markup |}] |}.

(** The file name [handle_template_choice] looks up for a callback. *)
Definition chosen_template (callback : CallbackQuery) : string :=
  str_remove "template_" (data callback) ++ ".pptx".

(** The texts of the answers of [handle_template_choice]. *)
Definition template_chosen_text : string :=
  "✅ Шаблон выбран успешно! Теперь вы можете:" ++ newline ++
  "1. Добавить контент" ++ newline ++
  "2. Изменить дизайн" ++ newline ++
  "3. Сохранить презентацию".

Definition template_missing_text (name : string) : string :=
  "❌ Ошибка: Шаблон " ++ name ++ " не найден.".

Definition template_failed_text : string :=
  "❌ Произошла ошибка при создании презентации".

(** Sample inputs of the statements below. *)
Definition content_layout : SlideLayout :=
  {| layout_name := "Title and Content"; layout_placeholders := [0; 1]%nat |}.

Definition title_only_layout : SlideLayout :=
  {| layout_name := "Title Only"; layout_placeholders := [0%nat] |}.

(** A deck whose first two layouts have a title placeholder only. *)
Definition title_only_deck : Presentation :=
  {| slide_layouts := [title_only_layout; title_only_layout]; slides := [] |}.

Definition sample_images : gmap string entry :=
  <["chart.png" := File ["P"%byte]]> ∅.

Definition any_image (blob : list byte) : bool := true.

Definition sample_writer (prs : Presentation) : list byte := ["Z"%byte].

(** A chat service that does not hand out the file. *)
Definition no_file_service : Telegram :=
  {| get_file_result := None;
     storage_ok := true;
     download_data := [];
     download_completes := false |}.

Definition sample_chat : Chat :=
  {| chat_files := sample_catalog; chat_answers := [] |}.

Definition sample_callback (d : string) : CallbackQuery :=
  {| callback_from_user_id := 42; data := d |}.

(** A chat whose files hold the template but no download directory. *)
Definition chat_without_downloads : Chat :=
  {| chat_files := <["templates/business.pptx" := File ["P"%byte; "K"%byte]]> ∅;
     chat_answers := [] |}.

(** ** Placeholders *)

Lemma find_placeholder_clone (idx : nat) (idxs : list nat) :
  find_placeholder idx (map clone_placeholder idxs)
  = if existsb (fun i => Nat.eqb i idx) idxs then Some (clone_placeholder idx) else None.
Proof.
  induction idxs as [|i idxs IH]; simpl; [reflexivity|].
  destruct (Nat.eqb_spec i idx) as [->|Hne]; simpl; [reflexivity|exact IH].
Qed.

Lemma update_placeholder_None (idx : nat) f (phs : list Placeholder) :
  find_placeholder idx phs = None -> update_placeholder idx f phs = None.
Proof.
  induction phs as [|ph phs IH]; simpl; [reflexivity|].
  destruct (Nat.eqb (ph_idx ph) idx); [discriminate|].
  intros H. rewrite (IH H). reflexivity.
Qed.

(** A successful update rewrites the text frame of the placeholder found
    and is invisible at every other [idx]. *)
Lemma update_placeholder_Some (idx : nat) f (phs : list Placeholder) ph :
  find_placeholder idx phs = Some ph ->
  exists phs',
    update_placeholder idx f phs = Some phs'
    /\ find_placeholder idx phs'
       = Some {| ph_idx := ph_idx ph; text_frame := f (text_frame ph) |}
    /\ forall j, j <> idx -> find_placeholder j phs' = find_placeholder j phs.
Proof.
  induction phs as [|p phs IH]; simpl; [discriminate|].
  destruct (Nat.eqb_spec (ph_idx p) idx) as [Heq|Hne].
  - intros [= <-]. eexists. split; [reflexivity|]. split.
    + simpl. rewrite Heq, Nat.eqb_refl. reflexivity.
    + intros j Hj. simpl. rewrite Heq.
      destruct (Nat.eqb_spec idx j) as [->|_]; [contradiction|reflexivity].
  - intros Hfind. destruct (IH Hfind) as (phs' & Hupd & Hsame & Hother).
    exists (p :: phs'). rewrite Hupd. split; [reflexivity|]. split.
    + simpl. destruct (Nat.eqb_spec (ph_idx p) idx); [contradiction|exact Hsame].
    + intros j Hj. simpl. rewrite (Hother j Hj). reflexivity.
Qed.

(** ** Mutation through a slide reference *)

(** The reference [add_slide] returned designates the last slide. *)
Lemma with_slide_last layouts (old : list Slide) (s : Slide) f :
  with_slide (length old) f {| slide_layouts := layouts; slides := old ++ [s] |}
  = match f s with
    | Ok s' => ({| slide_layouts := layouts; slides := old ++ [s'] |}, Ok tt)
    | Raise e => ({| slide_layouts := layouts; slides := old ++ [s] |}, Raise e)
    end.
Proof.
  unfold with_slide. simpl.
  rewrite list_lookup_middle by reflexivity.
  destruct (f s); [|reflexivity].
  rewrite insert_app_r_alt, Nat.sub_diag by reflexivity. reflexivity.
Qed.

(** ** Running [add_title_slide] *)

(** All runs of [add_title_slide], by the point at which they stop. *)
Lemma add_title_slide_run (title subtitle : string) (prs : Presentation) :
  add_title_slide title subtitle prs
  = match slide_layouts prs !! 0%nat with
    | None => (prs, Raise IndexError)
    | Some layout =>
        match update_placeholder 0 (set_text title) (placeholders (new_slide layout)) with
        | None => (append_slide prs (new_slide layout), Raise AttributeError)
        | Some phs =>
            if truthy subtitle then
              match update_placeholder 1 (set_text subtitle) phs with
              | None => (append_slide prs (slide_with layout phs), Raise KeyError)
              | Some phs' => (append_slide prs (slide_with layout phs'), Ok tt)
              end
            else (append_slide prs (slide_with layout phs), Ok tt)
        end
    end.
Proof.
  unfold add_title_slide, bind, slide_layouts_getitem.
  destruct (slide_layouts prs !! 0%nat) as [layout|]; [|reflexivity].
  unfold add_slide, shapes_title_set_text, placeholders_update.
  rewrite with_slide_last.
  destruct (update_placeholder 0 (set_text title) (placeholders (new_slide layout)))
    as [phs|]; [|reflexivity].
  destruct (truthy subtitle); [|reflexivity].
  rewrite with_slide_last. simpl.
  destruct (update_placeholder 1 (set_text subtitle) phs); reflexivity.
Qed.

(** ** Text that is stored as it is *)

Lemma split_on_absent (sep : ascii) (s : string) :
  has_char sep s = false -> split_on sep s = [s].
Proof.
  induction s as [|c s IH]; [reflexivity|].
  cbn [has_char split_on]. intros H. apply orb_false_iff in H as [-> Hs].
  rewrite (IH Hs). reflexivity.
Qed.

(** A paragraph keeps a text without escaped character and without line
    feed. *)
Lemma paragraph_text_kept (s : string) :
  no_escape s = true -> has_char (ascii_of_nat 10) s = false -> paragraph_text s = s.
Proof.
  induction s as [|c s IH]; [reflexivity|].
  cbn [no_escape has_char paragraph_text]. intros H Hlf.
  apply andb_true_iff in H as [Hc Hs]. apply orb_false_iff in Hlf as [Hlf Hrest].
  rewrite (IH Hs Hrest).
  assert (Hne : nat_of_ascii c <> 10%nat).
  { intros E. rewrite <- (ascii_nat_embedding c), E in Hlf. discriminate. }
  replace (Nat.eqb (nat_of_ascii c) 10) with false in *
    by (symmetry; apply Nat.eqb_neq; exact Hne).
  rewrite orb_false_r in Hc. cbn [orb].
  destruct (Nat.eqb_spec (nat_of_ascii c) 11) as [E|_].
  - rewrite <- (ascii_nat_embedding c), E. reflexivity.
  - rewrite orb_false_r in Hc.
    destruct (Nat.eqb_spec (nat_of_ascii c) 9) as [E|_].
    + rewrite andb_false_r. reflexivity.
    + rewrite orb_false_r in Hc. apply Nat.leb_le in Hc.
      replace (Nat.ltb (nat_of_ascii c) 32) with false
        by (symmetry; apply Nat.ltb_ge; lia).
      reflexivity.
Qed.

(** The pieces of a cut hold no separator, and no escaped character when
    the whole holds none. *)
Lemma split_on_In (sep : ascii) (s part : string) :
  In part (split_on sep s) ->
  has_char sep part = false /\ (no_escape s = true -> no_escape part = true).
Proof.
  revert part. induction s as [|c s IH]; intros part Hin.
  - destruct Hin as [<-|[]]. split; [reflexivity|intros _; reflexivity].
  - cbn [split_on] in Hin. cbn [no_escape].
    destruct (Ascii.eqb_spec c sep) as [->|Hne].
    + destruct Hin as [<-|Hin]; [split; [reflexivity|intros _; reflexivity]|].
      destruct (IH part Hin) as [H1 H2]. split; [exact H1|].
      intros H. apply andb_true_iff in H as [_ H]. apply H2, H.
    + assert (Hc : Ascii.eqb c sep = false) by (apply Ascii.eqb_neq; exact Hne).
      destruct (split_on sep s) as [|p ps] eqn:E.
      * destruct Hin as [<-|[]]. cbn [has_char no_escape]. rewrite Hc.
        split; [reflexivity|].
        intros H. apply andb_true_iff in H as [H _]. rewrite H. reflexivity.
      * destruct Hin as [<-|Hin].
        -- destruct (IH p (or_introl eq_refl)) as [H1 H2].
           cbn [has_char no_escape]. rewrite Hc, H1. split; [reflexivity|].
           intros H. apply andb_true_iff in H as [Hk H]. rewrite Hk, (H2 H).
           reflexivity.
        -- destruct (IH part (or_intror Hin)) as [H1 H2]. split; [exact H1|].
           intros H. apply andb_true_iff in H as [_ H]. apply H2, H.
Qed.

Lemma split_on_nonempty (sep : ascii) (s : string) : split_on sep s <> [].
Proof.
  destruct s as [|c s]; [discriminate|].
  cbn [split_on]. destruct (Ascii.eqb c sep); [discriminate|].
  destruct (split_on sep s); discriminate.
Qed.

(** Joining the pieces of a cut with the separator gives the string
    back. *)
Lemma concat_split_on (sep : ascii) (s : string) :
  String.concat (String sep "") (split_on sep s) = s.
Proof.
  induction s as [|c s IH]; [reflexivity|].
  pose proof (split_on_nonempty sep s) as Hne.
  cbn [split_on]. destruct (Ascii.eqb_spec c sep) as [->|_].
  - destruct (split_on sep s) as [|p ps]; [contradiction|].
    change (String.concat (String sep "") ("" :: p :: ps))
      with (String sep (String.concat (String sep "") (p :: ps))).
    rewrite IH. reflexivity.
  - destruct (split_on sep s) as [|p ps]; [contradiction|].
    destruct ps as [|q qs]; simpl in *; rewrite <- IH; reflexivity.
Qed.

(** Text without escaped character reads back from a shape as it was
    written. *)
Lemma stored_text_kept (s : string) : kept_text s = true -> stored_text s = s.
Proof.
  unfold kept_text. intros H. apply andb_true_iff in H as [H _].
  unfold stored_text, set_text, get_text. rewrite map_map. cbn [p_text].
  rewrite (map_ext_in _ (fun line => line)).
  - rewrite map_id. apply concat_split_on.
  - intros line Hin. destruct (split_on_In _ s line Hin) as [Hlf Hkept].
    apply paragraph_text_kept; [apply Hkept, H|exact Hlf].
Qed.

(** On a layout with a title placeholder the title write succeeds and
    touches nothing else. *)
Lemma title_write (layout : SlideLayout) (title : string) :
  has_placeholder 0 layout = true ->
  exists phs,
    update_placeholder 0 (set_text title) (placeholders (new_slide layout)) = Some phs
    /\ slide_title (slide_with layout phs) = Some (stored_text title)
    /\ forall j, j <> 0%nat ->
         find_placeholder j phs = find_placeholder j (placeholders (new_slide layout)).
Proof.
  intros Hhas. unfold has_placeholder in Hhas.
  pose proof (find_placeholder_clone 0 (layout_placeholders layout)) as Hfind.
  rewrite Hhas in Hfind.
  destruct (update_placeholder_Some 0 (set_text title) _ _ Hfind)
    as (phs & Hupd & Hsame & Hother).
  exists phs. split; [exact Hupd|]. split; [|exact Hother].
  unfold slide_title. simpl. rewrite Hsame. reflexivity.
Qed.

Lemma update_placeholder_frame (idx : nat) f (phs phs' : list Placeholder) :
  update_placeholder idx f phs = Some phs' ->
  forall j, j <> idx -> find_placeholder j phs' = find_placeholder j phs.
Proof.
  intros Hupd.
  destruct (find_placeholder idx phs) as [ph|] eqn:Hfind.
  - destruct (update_placeholder_Some idx f phs ph Hfind) as (phs'' & Hupd' & _ & Hother).
    rewrite Hupd in Hupd'. injection Hupd' as <-. exact Hother.
  - rewrite (update_placeholder_None idx f phs Hfind) in Hupd. discriminate.
Qed.

(** What [add_title_slide] leaves on a deck whose first layout has a title
    placeholder, however the call ends: one more slide, which carries the
    title. *)
Lemma add_title_slide_titled (title subtitle : string) (prs : Presentation)
    (layout : SlideLayout) :
  slide_layouts prs !! 0%nat = Some layout ->
  has_placeholder 0 layout = true ->
  exists s,
    fst (add_title_slide title subtitle prs) = append_slide prs s
    /\ slide_title s = Some (stored_text title)
    /\ (truthy subtitle = false \/ has_placeholder 1 layout = true ->
        snd (add_title_slide title subtitle prs) = Ok tt).
Proof.
  intros Hlayout Htitle.
  rewrite add_title_slide_run, Hlayout.
  destruct (title_write layout title Htitle) as (phs & -> & Hread & Hother).
  destruct (truthy subtitle) eqn:Htruthy.
  - destruct (update_placeholder 1 (set_text subtitle) phs) as [phs'|] eqn:Hupd.
    + exists (slide_with layout phs'). split; [reflexivity|]. split; [|reflexivity].
      unfold slide_title in *. simpl in *.
      rewrite (update_placeholder_frame _ _ _ _ Hupd 0%nat) by discriminate.
      exact Hread.
    + exists (slide_with layout phs). split; [reflexivity|]. split; [exact Hread|].
      intros [Hf|Hsub]; [discriminate|]. exfalso.
      unfold has_placeholder in Hsub.
      pose proof (find_placeholder_clone 1 (layout_placeholders layout)) as Hfind.
      rewrite Hsub in Hfind.
      assert (Hphs : find_placeholder 1 phs = Some (clone_placeholder 1))
        by (rewrite (Hother 1%nat) by discriminate; exact Hfind).
      destruct (update_placeholder_Some 1 (set_text subtitle) _ _ Hphs) as (? & Hs & _).
      rewrite Hupd in Hs. discriminate.
  - exists (slide_with layout phs). split; [reflexivity|]. split; [exact Hread|].
    reflexivity.
Qed.

(** The success case of [add_title_slide], for any title. *)
Lemma add_title_slide_ok (title subtitle : string) (prs : Presentation)
    (layout : SlideLayout) :
  slide_layouts prs !! 0%nat = Some layout ->
  has_placeholder 0 layout = true ->
  truthy subtitle = false \/ has_placeholder 1 layout = true ->
  exists s,
    add_title_slide title subtitle prs = (append_slide prs s, Ok tt)
    /\ slide_title s = Some (stored_text title).
Proof.
  intros Hlayout Htitle Hsub.
  destruct (add_title_slide_titled title subtitle prs layout Hlayout Htitle)
    as (s & Hfst & Hread & Hok).
  exists s. split; [|exact Hread].
  specialize (Hok Hsub).
  destruct (add_title_slide title subtitle prs) as [prs' r]. simpl in *.
  rewrite Hfst, Hok. reflexivity.
Qed.

Lemma title_slide_appended_intro (prs : Presentation) (s : Slide) (title : string) :
  slide_title s = Some title ->
  title_slide_appended prs (append_slide prs s) title.
Proof.
  intros Hs. unfold title_slide_appended, slide_count, append_slide. simpl.
  rewrite length_app, last_snoc. simpl. rewrite Hs.
  split; [lia|reflexivity].
Qed.


(** Whether [add_title_slide] returns or raises, which exception, and how
    many slides the deck has afterwards, is decided by the layout and the
    subtitle alone: the title is never inspected. *)
Lemma add_title_slide_title_blind (t1 t2 subtitle : string) (prs : Presentation) :
  snd (add_title_slide t1 subtitle prs) = snd (add_title_slide t2 subtitle prs)
  /\ slide_count (fst (add_title_slide t1 subtitle prs))
     = slide_count (fst (add_title_slide t2 subtitle prs)).
Proof.
  assert (Hcount : forall s, slide_count (append_slide prs s) = S (slide_count prs)).
  { intros s. unfold slide_count, append_slide. simpl. rewrite length_app. simpl. lia. }
  rewrite !add_title_slide_run.
  destruct (slide_layouts prs !! 0%nat) as [layout|]; [|split; reflexivity].
  destruct (find_placeholder 0 (placeholders (new_slide layout))) as [ph|] eqn:Hfind.
  - destruct (update_placeholder_Some 0 (set_text t1) _ _ Hfind) as (p1 & -> & _ & H1).
    destruct (update_placeholder_Some 0 (set_text t2) _ _ Hfind) as (p2 & -> & _ & H2).
    destruct (truthy subtitle); [|simpl; rewrite !Hcount; split; reflexivity].
    destruct (find_placeholder 1 p1) as [ph1|] eqn:Hf1.
    + assert (Hf2 : find_placeholder 1 p2 = Some ph1)
        by (rewrite H2, <- H1 by discriminate; exact Hf1).
      destruct (update_placeholder_Some 1 (set_text subtitle) _ _ Hf1) as (? & -> & _).
      destruct (update_placeholder_Some 1 (set_text subtitle) _ _ Hf2) as (? & -> & _).
      simpl. rewrite !Hcount. split; reflexivity.
    + assert (Hf2 : find_placeholder 1 p2 = None)
        by (rewrite H2, <- H1 by discriminate; exact Hf1).
      rewrite !update_placeholder_None by assumption.
      simpl. rewrite !Hcount. split; reflexivity.
  - rewrite !update_placeholder_None by assumption.
    simpl. rewrite !Hcount. split; reflexivity.
Qed.

(** ** The append operations *)

(** C6 (amended): for every deck whose first layout exists and has a title
    placeholder and every non-empty title that the slide library accepts
    and stores without escape (no control character other than tab, line
    feed and vertical tab), whatever the subtitle, the deck
    [add_title_slide] leaves has exactly one slide more, the slides already
    in the deck are as they were and the appended slide's title reads
    [title]; and the call returns normally when the subtitle is empty, or
    is accepted by the slide library and the layout has a placeholder with
    idx 1. *)
Theorem add_title_slide_appends (prs : Presentation) (title subtitle : string)
    (layout : SlideLayout) :
  truthy title = true ->
  kept_text title = true ->
  slide_layouts prs !! 0%nat = Some layout ->
  has_placeholder 0 layout = true ->
  title_slide_appended prs (fst (add_title_slide title subtitle prs)) title
  /\ take (slide_count prs) (slides (fst (add_title_slide title subtitle prs)))
     = slides prs
  /\ (truthy subtitle = false
      \/ (has_placeholder 1 layout = true /\ xml_text subtitle = true) ->
      snd (add_title_slide title subtitle prs) = Ok tt).
Proof.
  intros _ Hkept Hlayout Htitle.
  destruct (add_title_slide_titled title subtitle prs layout Hlayout Htitle)
    as (s & -> & Hread & Hok).
  rewrite (stored_text_kept title Hkept) in Hread.
  split; [apply title_slide_appended_intro, Hread|]. split.
  - unfold slide_count, append_slide. simpl. apply take_app_length.
  - intros [Hsub|[Hsub _]]; apply Hok; [left|right]; exact Hsub.
Qed.

(** C2 (amended): [add_title_slide] does not validate the title.  On every
    deck, an empty title makes the call end as any title that the slide
    library accepts does, with the same outcome and the same slide count
    afterwards; and on a deck whose first layout has a title placeholder
    the call leaves one slide more, whose title is empty, returning
    normally when the subtitle is empty, or is accepted by the slide
    library and the layout has a placeholder with idx 1. *)
Theorem add_title_slide_empty_title (prs : Presentation) (subtitle title : string) :
  xml_text title = true ->
  snd (add_title_slide "" subtitle prs) = snd (add_title_slide title subtitle prs)
  /\ slide_count (fst (add_title_slide "" subtitle prs))
     = slide_count (fst (add_title_slide title subtitle prs))
  /\ forall layout,
       slide_layouts prs !! 0%nat = Some layout ->
       has_placeholder 0 layout = true ->
       title_slide_appended prs (fst (add_title_slide "" subtitle prs)) ""
       /\ (truthy subtitle = false
           \/ (has_placeholder 1 layout = true /\ xml_text subtitle = true) ->
           snd (add_title_slide "" subtitle prs) = Ok tt).
Proof.
  intros _.
  destruct (add_title_slide_title_blind "" title subtitle prs) as [Hout Hcount].
  split; [exact Hout|]. split; [exact Hcount|].
  intros layout Hlayout Htitle.
  destruct (add_title_slide_titled "" subtitle prs layout Hlayout Htitle)
    as (s & -> & Hread & Hok).
  split; [apply title_slide_appended_intro, Hread|].
  intros [Hsub|[Hsub _]]; apply Hok; [left|right]; exact Hsub.
Qed.

(** What [add_title_slide] leaves behind on a deck with a first layout,
    whether it returns or raises. *)
Lemma add_title_slide_writes (prs : Presentation) (title subtitle : string)
    (layout : SlideLayout) :
  slide_layouts prs !! 0%nat = Some layout ->
  exists s,
    fst (add_title_slide title subtitle prs) = append_slide prs s
    /\ slide_layout s = layout
    /\ pictures s = []
    /\ (forall j, j <> 0%nat -> j <> 1%nat \/ truthy subtitle = false ->
          find_placeholder j (placeholders s)
          = find_placeholder j (placeholders (new_slide layout)))
    /\ (has_placeholder 0 layout = true -> truthy subtitle = false ->
          snd (add_title_slide title subtitle prs) = Ok tt)
    /\ (has_placeholder 0 layout = true -> slide_title s = Some (stored_text title)).
Proof.
  intros Hlayout. rewrite add_title_slide_run, Hlayout.
  destruct (update_placeholder 0 (set_text title) (placeholders (new_slide layout)))
    as [phs|] eqn:Hupd.
  - pose proof (update_placeholder_frame _ _ _ _ Hupd) as Hother.
    assert (Hread : has_placeholder 0 layout = true ->
                    slide_title (slide_with layout phs) = Some (stored_text title)).
    { intros Hhas. destruct (title_write layout title Hhas) as (phs0 & Hupd0 & Hr & _).
      rewrite Hupd in Hupd0. injection Hupd0 as <-. exact Hr. }
    destruct (truthy subtitle) eqn:Hsub.
    + destruct (update_placeholder 1 (set_text subtitle) phs) as [phs'|] eqn:Hupd1.
      * exists (slide_with layout phs').
        split; [reflexivity|]. split; [reflexivity|]. split; [reflexivity|].
        split; [|split; [discriminate|]].
        -- intros j Hj0 [Hj1|Hf]; [|discriminate]. simpl.
           rewrite (update_placeholder_frame _ _ _ _ Hupd1 j Hj1). apply Hother, Hj0.
        -- intros Hhas. unfold slide_title in *. simpl in *.
           rewrite (update_placeholder_frame _ _ _ _ Hupd1 0%nat) by discriminate.
           apply Hread, Hhas.
      * exists (slide_with layout phs).
        split; [reflexivity|]. split; [reflexivity|]. split; [reflexivity|].
        split; [|split; [discriminate|exact Hread]].
        intros j Hj0 _. apply Hother, Hj0.
    + exists (slide_with layout phs).
      split; [reflexivity|]. split; [reflexivity|]. split; [reflexivity|].
      split; [|split; [reflexivity|exact Hread]].
      intros j Hj0 _. apply Hother, Hj0.
  - exists (new_slide layout).
    split; [reflexivity|]. split; [reflexivity|]. split; [reflexivity|].
    split; [reflexivity|].
    split; intros Hhas; destruct (title_write layout title Hhas) as (? & Hupd0 & _);
      rewrite Hupd in Hupd0; discriminate.
Qed.

(** C9 (amended): for every deck and every non-empty title,
    [add_title_slide] either finds no first layout and leaves the deck as
    it was, or leaves it with one slide more, made from the first layout
    and without picture.  On that slide every placeholder other than the
    title is as cloned from the layout when the subtitle is empty, and
    every placeholder other than the title and idx 1 is as cloned whatever
    the subtitle: idx 1 is written only for a non-empty subtitle.  The title
    is set when the first layout has a title placeholder: then, for a
    title that the slide library accepts, the call returns normally when
    the subtitle is empty, and a title that is stored without escape reads
    back as given. *)
Theorem add_title_slide_subtitle_frame (prs : Presentation) (title subtitle : string) :
  truthy title = true ->
  (slide_layouts prs !! 0%nat = None
   /\ fst (add_title_slide title subtitle prs) = prs)
  \/ exists layout s,
       slide_layouts prs !! 0%nat = Some layout
       /\ fst (add_title_slide title subtitle prs) = append_slide prs s
       /\ slide_layout s = layout
       /\ pictures s = []
       /\ (forall j, j <> 0%nat -> j <> 1%nat \/ truthy subtitle = false ->
             find_placeholder j (placeholders s)
             = find_placeholder j (placeholders (new_slide layout)))
       /\ (has_placeholder 0 layout = true -> xml_text title = true ->
           truthy subtitle = false ->
             snd (add_title_slide title subtitle prs) = Ok tt)
       /\ (has_placeholder 0 layout = true -> kept_text title = true ->
             slide_title s = Some title).
Proof.
  intros _. destruct (slide_layouts prs !! 0%nat) as [layout|] eqn:Hlayout.
  - right. destruct (add_title_slide_writes prs title subtitle layout Hlayout)
      as (s & H1 & H2 & H3 & H4 & H5 & H6). exists layout, s.
    split; [reflexivity|]. split; [exact H1|]. split; [exact H2|].
    split; [exact H3|]. split; [exact H4|].
    split; [intros Hhas _; exact (H5 Hhas)|].
    intros Hhas Hkept. rewrite (H6 Hhas), (stored_text_kept title Hkept).
    reflexivity.
  - left. split; [reflexivity|]. rewrite add_title_slide_run, Hlayout. reflexivity.
Qed.

(** [add_image_slide] with a path that does not exist, on any deck whose
    sixth layout has a title placeholder: the slide is appended and titled
    before the path is looked at. *)
Lemma add_image_slide_missing (is_image : list byte -> bool)
    (files : gmap string entry) (prs : Presentation) (title image_path : string)
    (layout : SlideLayout) :
  slide_layouts prs !! 5%nat = Some layout ->
  has_placeholder 0 layout = true ->
  Path_exists files (Path_str image_path) = false ->
  exists s,
    add_image_slide is_image files title image_path prs
    = (append_slide prs s,
       Raise (FileNotFoundError ("Изображение по пути " ++ image_path ++ " не найдено.")))
    /\ slide_title s = Some (stored_text title).
Proof.
  intros Hlayout Hhas Hmissing.
  unfold add_image_slide, bind, slide_layouts_getitem. rewrite Hlayout.
  unfold add_slide, shapes_title_set_text. rewrite with_slide_last.
  destruct (title_write layout title Hhas) as (phs & -> & Hread & _).
  rewrite Hmissing. exists (slide_with layout phs). split; [reflexivity|exact Hread].
Qed.


(** C1: on the blank deck of [Presentation()], [add_image_slide] with a
    path that does not exist raises [FileNotFoundError] and leaves the deck
    with one slide more than before, the image slide it had already
    appended and titled. *)
Theorem add_image_slide_missing_image_mutates (is_image : list byte -> bool) :
  add_image_slide is_image ∅ "Chart" "missing.png" Presentation_new
  = (append_slide Presentation_new
       {| slide_layout := {| layout_name := "Title Only"; layout_placeholders := [0%nat] |};
          placeholders := [{| ph_idx := 0;
                              text_frame := [{| p_text := "Chart"; p_font_size := None |}] |}];
          pictures := [] |},
     Raise (FileNotFoundError "Изображение по пути missing.png не найдено."))
  /\ slide_count Presentation_new = 0%nat
  /\ slide_count (fst (add_image_slide is_image ∅ "Chart" "missing.png" Presentation_new))
     = 1%nat.
Proof. repeat split. Qed.

(** The scenario of the content slide: one slide more, whose body holds
    the placeholder's initial empty paragraph followed by one paragraph per
    bullet at 18 points. *)
Example add_content_slide_bullets :
  add_content_slide "Q1 Results" ["Revenue up 10%"; "Costs down 5%"] Presentation_new
  = (append_slide Presentation_new
       {| slide_layout :=
            {| layout_name := "Title and Content"; layout_placeholders := [0; 1]%nat |};
          placeholders :=
            [{| ph_idx := 0;
                text_frame := [{| p_text := "Q1 Results"; p_font_size := None |}] |};
             {| ph_idx := 1;
                text_frame :=
                  [empty_paragraph;
                   {| p_text := "Revenue up 10%"; p_font_size := Some 228600 |};
                   {| p_text := "Costs down 5%"; p_font_size := Some 228600 |}] |}];
          pictures := [] |},
     Ok tt).
Proof. reflexivity. Qed.

(** With an image at the path, the picture is placed one inch from the
    left and from the top. *)
Example add_image_slide_places_picture :
  add_image_slide (fun _ => true) (<["chart.png" := File ["P"%byte]]> ∅)
    "Chart" "chart.png" Presentation_new
  = (append_slide Presentation_new
       {| slide_layout := {| layout_name := "Title Only"; layout_placeholders := [0%nat] |};
          placeholders := [{| ph_idx := 0;
                              text_frame := [{| p_text := "Chart"; p_font_size := None |}] |}];
          pictures := [{| pic_blob := ["P"%byte]; pic_left := 914400; pic_top := 914400 |}] |},
     Ok tt).
Proof. reflexivity. Qed.

(** ** Configuration *)

(** C4: started without [API_TOKEN] in its environment, the program takes
    the token literal written in its source, and the bot is constructed
    with it. *)
Theorem API_TOKEN_falls_back_to_literal :
  Config.API_TOKEN ∅ = "7567293644:AAHVSPgyYAPt_NaUahhdID2njMK-FrtxaRg"
  /\ PresentationBot_token ∅ = "7567293644:AAHVSPgyYAPt_NaUahhdID2njMK-FrtxaRg".
Proof. split; reflexivity. Qed.

(** With [API_TOKEN] set, the environment's value is the token. *)
Lemma API_TOKEN_from_environment (environ : gmap string string) (token : string) :
  environ !! "API_TOKEN" = Some token -> Config.API_TOKEN environ = token.
Proof. intros H. unfold Config.API_TOKEN, getenv. rewrite H. reflexivity. Qed.


(** ** Paths *)

Lemma has_char_app (c : ascii) (a b : string) :
  has_char c (a ++ b) = has_char c a || has_char c b.
Proof.
  induction a as [|x a IH]; [reflexivity|].
  change (has_char c (String x a ++ b)) with (Ascii.eqb x c || has_char c (a ++ b)).
  rewrite IH. cbn [has_char]. apply orb_assoc.
Qed.

Lemma prefix_slash_has_char (s : string) :
  has_char "/" s = false -> String.prefix "/" s = false.
Proof.
  destruct s as [|c s]; [reflexivity|]. cbn [has_char]. intros H.
  apply orb_false_iff in H as [Hc _].
  change (String.prefix "/" (String c s))
    with (if ascii_dec "/"%char c then String.prefix "" s else false).
  destruct (ascii_dec "/"%char c) as [<-|_]; [discriminate|reflexivity].
Qed.

(** A string without slash that is neither empty nor [.] is its own single
    path component. *)
Lemma path_parts_single (s : string) :
  has_char "/" s = false -> s <> "" -> s <> "." -> path_parts s = [s].
Proof.
  intros Hslash Hne Hdot. unfold path_parts.
  rewrite (split_on_absent _ s Hslash). cbn [List.filter].
  destruct (String.eqb_spec s "") as [->|_]; [contradiction|].
  destruct (String.eqb_spec s ".") as [->|_]; [contradiction|].
  reflexivity.
Qed.

(** Joining a one-component directory and a one-component name. *)
Lemma Path_div_single (base name : string) :
  has_char "/" base = false -> base <> "" -> base <> "." ->
  has_char "/" name = false -> name <> "" -> name <> "." ->
  Path_div base name = base ++ "/" ++ name.
Proof.
  intros Hb1 Hb2 Hb3 Hn1 Hn2 Hn3. unfold Path_div.
  rewrite (prefix_slash_has_char name Hn1).
  rewrite (path_parts_single base Hb1 Hb2 Hb3), (path_parts_single name Hn1 Hn2 Hn3).
  unfold path_root.
  assert (String.prefix "//" base = false) as ->.
  { destruct base as [|c base]; [reflexivity|].
    cbn [has_char] in Hb1. apply orb_false_iff in Hb1 as [Hc _].
    change (String.prefix "//" (String c base))
      with (if ascii_dec "/"%char c then String.prefix "/" base else false).
    destruct (ascii_dec "/"%char c) as [<-|_]; [discriminate|reflexivity]. }
  rewrite (prefix_slash_has_char base Hb1). reflexivity.
Qed.

(** The decimal rendering of a number holds neither slash nor
    underscore. *)
Lemma pretty_N_go_chars (x : N) :
  forall s,
    has_char "/" s = false -> has_char "_" s = false ->
    has_char "/" (pretty_N_go x s) = false
    /\ has_char "_" (pretty_N_go x s) = false.
Proof.
  induction (N.lt_wf_0 x) as [x _ IH]; intros s Hslash Hunder.
  assert (x = 0 \/ 0 < x)%N as [->|Hpos] by lia.
  - rewrite pretty_N_go_0. split; assumption.
  - rewrite pretty_N_go_step by exact Hpos. apply IH.
    + apply N.div_lt; [exact Hpos|reflexivity].
    + simpl. rewrite Hslash. unfold pretty_N_char. repeat case_match; reflexivity.
    + simpl. rewrite Hunder. unfold pretty_N_char. repeat case_match; reflexivity.
Qed.

Lemma pretty_Z_chars (z : Z) :
  has_char "/" (pretty z) = false /\ has_char "_" (pretty z) = false.
Proof.
  assert (HN : forall n : N,
    has_char "/" (pretty n) = false /\ has_char "_" (pretty n) = false).
  { intros n. unfold pretty, pretty_N. case_decide; [split; reflexivity|].
    apply pretty_N_go_chars; reflexivity. }
  destruct z as [|p|p]; [split; reflexivity|apply (HN (Npos p))|].
  destruct (HN (Npos p)) as [Hslash Hunder].
  unfold pretty, pretty_Z. split; simpl; assumption.
Qed.

Lemma truthy_app_r (a b : string) : truthy b = true -> truthy (a ++ b) = true.
Proof. destruct a; simpl; auto. Qed.

(** A string that holds an underscore is neither empty nor [.]. *)
Lemma underscore_not_dot (s : string) :
  has_char "_" s = true -> s <> "" /\ s <> ".".
Proof. intros H. split; intros ->; discriminate. Qed.

(** The name under which an upload is stored, for a file name without
    slash: one path component. *)
Lemma upload_name_single (uid : Z) (name : string) :
  has_char "/" name = false ->
  has_char "/" (pretty uid ++ "_" ++ name) = false
  /\ pretty uid ++ "_" ++ name <> ""
  /\ pretty uid ++ "_" ++ name <> ".".
Proof.
  intros Hname. destruct (pretty_Z_chars uid) as [Hslash _].
  split.
  - rewrite has_char_app, Hslash. simpl. exact Hname.
  - apply underscore_not_dot. rewrite has_char_app. simpl. apply orb_true_r.
Qed.

Lemma upload_path_shape (message : Message) (doc : Document) :
  has_char "/" (file_name doc) = false ->
  upload_path message doc
  = "downloads/" ++ pretty (from_user_id message) ++ "_" ++ file_name doc.
Proof.
  intros Hname. unfold upload_path, Config.DOWNLOAD_PATH.
  destruct (upload_name_single (from_user_id message) (file_name doc) Hname)
    as (H1 & H2 & H3).
  rewrite Path_div_single by (assumption || reflexivity || discriminate).
  reflexivity.
Qed.

Lemma temp_path_shape (uid : Z) :
  temp_path_of uid = "downloads/" ++ pretty uid ++ "_temp.pptx".
Proof.
  unfold temp_path_of, Config.DOWNLOAD_PATH.
  destruct (upload_name_single uid "temp.pptx" eq_refl) as (H1 & H2 & H3).
  rewrite Path_div_single by (assumption || reflexivity || discriminate).
  reflexivity.
Qed.

(** Looking up a path that is neither the current directory nor the
    root. *)
Lemma entry_at_lookup (files : gmap string entry) (q : string) :
  q <> "." -> q <> "/" -> entry_at files q = files !! q.
Proof.
  intros Hdot Hroot. unfold entry_at. destruct (files !! q); [reflexivity|].
  destruct (String.eqb_spec q ".") as [->|_]; [contradiction|].
  destruct (String.eqb_spec q "/") as [->|_]; [contradiction|reflexivity].
Qed.

(** ** Creating a presentation *)

(** The path [create_presentation] looks a plain file name up at. *)
Lemma template_path_plain (name : string) :
  file_name_like name = true ->
  Path_div Config.TEMPLATES_PATH name = "templates/" ++ name
  /\ truthy name = true.
Proof.
  unfold file_name_like. intros H. apply andb_true_iff in H as [Hslash Hne].
  apply negb_true_iff in Hslash. apply negb_true_iff in Hne.
  apply orb_false_iff in Hne as [Hne Hdd]. apply orb_false_iff in Hne as [Hne Hd].
  apply String.eqb_neq in Hne, Hd. split.
  - unfold Config.TEMPLATES_PATH.
    rewrite Path_div_single by (assumption || reflexivity || discriminate).
    reflexivity.
  - destruct name; [contradiction|reflexivity].
Qed.

(** C8 (amended): for a template name that is a plain file name (one path
    component, not empty, not [.] or [..]), [create_presentation] looks at
    the entry of that name directly inside the template directory: it
    raises [FileNotFoundError], with the message that names the template,
    exactly when there is no such entry, and returns the presentation the
    file holds when the slide library can read it.  Without a template name,
    and with the empty string for one, it returns the blank deck, which has
    no slide. *)
Theorem create_presentation_catalog (load_pptx : list byte -> option Presentation)
    (files : gmap string entry) (name : string) :
  file_name_like name = true ->
  ((exists msg, create_presentation load_pptx files (Some name)
                = Raise (FileNotFoundError msg))
   <-> catalog_entry files name = None)
  /\ (catalog_entry files name = None ->
      create_presentation load_pptx files (Some name)
      = Raise (FileNotFoundError ("Шаблон " ++ name ++ " не найден.")))
  /\ (forall data prs,
        catalog_entry files name = Some (File data) ->
        load_pptx data = Some prs ->
        create_presentation load_pptx files (Some name) = Ok prs)
  /\ create_presentation load_pptx files None = Ok Presentation_new
  /\ create_presentation load_pptx files (Some "") = Ok Presentation_new
  /\ slide_count Presentation_new = 0%nat.
Proof.
  intros Hname. destruct (template_path_plain name Hname) as [Hpath Htruthy].
  unfold create_presentation, catalog_entry. rewrite Htruthy, Hpath.
  assert (Hat : entry_at files ("templates/" ++ name) = files !! ("templates/" ++ name))
    by (apply entry_at_lookup; discriminate).
  unfold Path_exists, Presentation_open. rewrite Hat.
  split; [|split; [|split; [|repeat split]]].
  - destruct (files !! ("templates/" ++ name)) as [[|data]|].
    + split; [intros [msg H]; discriminate|discriminate].
    + split; [|discriminate]. intros [msg H].
      destruct (load_pptx data); discriminate.
    + split; [reflexivity|]. intros _. eexists. reflexivity.
  - intros ->. reflexivity.
  - intros data prs -> ->. reflexivity.
Qed.

(** ** Ingesting an upload *)

Section Ingestion.

Variable load_pptx : list byte -> option Presentation.
Variable tg : Telegram.
Variable message : Message.
Variable doc : Document.
Variable w : World.

Hypothesis Hdoc : document message = Some doc.

(** A declared size above the ceiling: one answer, nothing else. *)
Lemma handle_document_rejected (size : Z) :
  file_size doc = Some size ->
  size > Config.MAX_FILE_SIZE ->
  handle_document load_pptx tg message w
  = ({| fs := fs w; net := net w; sent := sent w ++ [FileTooLarge 500] |}, Ok tt).
Proof.
  intros Hsize Hgt. unfold handle_document. rewrite Hdoc.
  unfold bind, lift, py_gt. rewrite Hsize.
  assert ((size >? Config.MAX_FILE_SIZE) = true) as -> by (apply Z.gtb_lt; lia).
  reflexivity.
Qed.

(** A declared size up to the ceiling: all runs of the [try] block, by
    the point at which they stop.  Once the destination is opened it is an
    empty file and stays one: what the slide library is given to read is
    the empty file, whatever the download delivered. *)
Lemma handle_document_accepted (size : Z) :
  file_size doc = Some size ->
  size <= Config.MAX_FILE_SIZE ->
  handle_document load_pptx tg message w
  = match get_file_result tg with
    | None => gave_up w (fs w) [GetFile (file_id doc)]
    | Some remote =>
        if storage_ok tg then
          match fs w !! upload_path message doc with
          | Some Dir => gave_up w (fs w) [GetFile (file_id doc)]
          | _ =>
              let files := <[upload_path message doc := File []]> (fs w) in
              let calls := [GetFile (file_id doc); DownloadFile remote] in
              if download_completes tg then
                match load_pptx [] with
                | Some prs =>
                    ({| fs := files; net := net w ++ calls;
                        sent := sent w ++ [PresentationLoaded (length (slides prs))] |},
                     Ok tt)
                | None => gave_up w files calls
                end
              else gave_up w files calls
          end
        else gave_up w (fs w) [GetFile (file_id doc)]
    end.
Proof.
  intros Hsize Hle. unfold handle_document. rewrite Hdoc.
  unfold bind at 1. unfold lift at 1. unfold py_gt. rewrite Hsize.
  assert ((size >? Config.MAX_FILE_SIZE) = false) as ->
    by (rewrite Z.gtb_ltb; apply Z.ltb_ge; lia).
  fold (upload_path message doc).
  unfold try_except, bind, bot_get_file, gave_up, answer, modify.
  destruct (get_file_result tg) as [remote|]; [|reflexivity].
  unfold open_wb. simpl.
  destruct (storage_ok tg); [|reflexivity].
  destruct (fs w !! upload_path message doc) as [[|old]|]; [reflexivity| |];
    (unfold bot_download_file, lift, Presentation_open, entry_at;
     cbn [fs net sent]; rewrite <- app_assoc;
     destruct (download_completes tg); [|reflexivity];
     cbn [fs net sent]; rewrite lookup_insert_eq;
     destruct (load_pptx []); reflexivity).
Qed.

End Ingestion.

(** Every run of the [try] block ends normally with exactly one answer,
    which is not the too-large one, after a [get_file] request. *)
Lemma handle_document_accepted_shape (load_pptx : list byte -> option Presentation)
    (tg : Telegram) (message : Message) (doc : Document) (w : World) (size : Z) :
  document message = Some doc ->
  file_size doc = Some size ->
  size <= Config.MAX_FILE_SIZE ->
  exists files calls r,
    handle_document load_pptx tg message w
    = ({| fs := files; net := net w ++ GetFile (file_id doc) :: calls;
          sent := sent w ++ [r] |}, Ok tt)
    /\ (r = ProcessingError \/ exists n, r = PresentationLoaded n).
Proof.
  intros Hdoc Hsize Hle.
  rewrite (handle_document_accepted load_pptx tg message doc w Hdoc size Hsize Hle).
  unfold gave_up.
  destruct (get_file_result tg) as [remote|]; [|eauto 8].
  destruct (storage_ok tg); [|eauto 8].
  destruct (fs w !! upload_path message doc) as [[|old]|]; [eauto 8| |];
    (cbv zeta; destruct (download_completes tg);
     [destruct (load_pptx []); eauto 8|eauto 8]).
Qed.


(** C5: an upload whose declared size exceeds the ceiling of 500 MiB is
    answered with the too-large message and nothing else happens: no
    request is made to the chat service, so no byte is read, no file is
    created or changed, and the call returns normally, leaving the handler's
    world as it was apart from the answer sent. *)
Theorem handle_document_too_large (load_pptx : list byte -> option Presentation)
    (tg : Telegram) (message : Message) (doc : Document) (w : World) (size : Z) :
  document message = Some doc ->
  file_size doc = Some size ->
  size > 500 * 1024 * 1024 ->
  Config.MAX_FILE_SIZE = 500 * 1024 * 1024
  /\ handle_document load_pptx tg message w
     = ({| fs := fs w; net := net w; sent := sent w ++ [FileTooLarge 500] |}, Ok tt).
Proof.
  intros Hdoc Hsize Hgt. split; [reflexivity|].
  exact (handle_document_rejected load_pptx tg message doc w Hdoc size Hsize Hgt).
Qed.

(** C10: the size check is strict.  An upload is turned down as too large
    exactly when its declared size is greater than the ceiling, and goes on
    to the [get_file] request exactly when it is at most the ceiling; at a
    declared size of exactly 500 * 1024 * 1024 bytes it goes on and is not
    turned down. *)
Theorem handle_document_strict_ceiling (load_pptx : list byte -> option Presentation)
    (tg : Telegram) (message : Message) (doc : Document) (w : World) (size : Z) :
  document message = Some doc ->
  file_size doc = Some size ->
  let w' := fst (handle_document load_pptx tg message w) in
  (rejected_too_large w w' <-> size > Config.MAX_FILE_SIZE)
  /\ (proceeds_to_ingestion doc w w' <-> size <= Config.MAX_FILE_SIZE)
  /\ (size = 500 * 1024 * 1024 ->
      proceeds_to_ingestion doc w w' /\ ~ rejected_too_large w w').
Proof.
  intros Hdoc Hsize w'.
  assert (Hacc : size <= Config.MAX_FILE_SIZE ->
                 proceeds_to_ingestion doc w w' /\ ~ rejected_too_large w w').
  { intros Hle.
    destruct (handle_document_accepted_shape load_pptx tg message doc w size
                Hdoc Hsize Hle) as (files & calls & r & Hrun & Hr).
    subst w'. rewrite Hrun. split.
    - exists calls. reflexivity.
    - intros [mb Hmb]. simpl in Hmb. apply app_inv_head in Hmb.
      destruct Hr as [->|[n ->]]; discriminate. }
  assert (Hrej : size > Config.MAX_FILE_SIZE ->
                 rejected_too_large w w' /\ ~ proceeds_to_ingestion doc w w').
  { intros Hgt. subst w'.
    rewrite (handle_document_rejected load_pptx tg message doc w Hdoc size Hsize Hgt).
    split.
    - exists 500. reflexivity.
    - intros [calls Hcalls]. simpl in Hcalls.
      apply (f_equal length) in Hcalls. rewrite length_app in Hcalls.
      simpl in Hcalls. lia. }
  split; [|split].
  - split; [|apply Hrej].
    intros Hr. destruct (Z_gt_le_dec size Config.MAX_FILE_SIZE) as [Hgt|Hle];
      [exact Hgt|]. destruct (Hacc Hle) as [_ Hn]. contradiction.
  - split; [|apply Hacc].
    intros Hp. destruct (Z_gt_le_dec size Config.MAX_FILE_SIZE) as [Hgt|Hle];
      [|exact Hle]. destruct (Hrej Hgt) as [_ Hn]. contradiction.
  - intros ->. apply Hacc. unfold Config.MAX_FILE_SIZE. lia.
Qed.


(** ** The statements at concrete inputs *)

(** C6, counterexample: two decks and titles on which the appended slide's
    title is not the title given.  On a deck whose first layout has no
    title placeholder, [add_title_slide] with the title [Hello] appends a
    slide and then raises, and the slide has no title.  On the blank deck,
    a title that holds the control character U+0001 is accepted, and the
    title of the new slide reads with the character escaped. *)
Lemma add_title_slide_title_not_kept :
  (truthy "Hello" = true
   /\ add_title_slide "Hello" "" blank_first_deck
      = (append_slide blank_first_deck
           (new_slide {| layout_name := "Blank"; layout_placeholders := [] |}),
         Raise AttributeError)
   /\ ~ title_slide_appended blank_first_deck
          (fst (add_title_slide "Hello" "" blank_first_deck)) "Hello")
  /\ (truthy control_title = true
      /\ snd (add_title_slide control_title "" Presentation_new) = Ok tt
      /\ slide_title <$> last (slides (fst (add_title_slide control_title ""
                                             Presentation_new)))
         = Some (Some "a_x0001_b")
      /\ ~ title_slide_appended Presentation_new
             (fst (add_title_slide control_title "" Presentation_new)) control_title).
Proof.
  split.
  - split; [reflexivity|]. split; [reflexivity|].
    intros [_ Htitle]. vm_compute in Htitle. discriminate.
  - split; [reflexivity|]. split; [reflexivity|]. split; [reflexivity|].
    intros [_ Htitle]. vm_compute in Htitle. discriminate.
Qed.

Lemma add_title_slide_appends_witness :
  title_slide_appended Presentation_new
    (fst (add_title_slide "Hello" "World" Presentation_new)) "Hello"
  /\ take (slide_count Presentation_new)
       (slides (fst (add_title_slide "Hello" "World" Presentation_new)))
     = slides Presentation_new
  /\ (truthy "World" = false
      \/ (has_placeholder 1 title_slide_layout = true /\ xml_text "World" = true) ->
      snd (add_title_slide "Hello" "World" Presentation_new) = Ok tt).
Proof.
  apply (add_title_slide_appends Presentation_new "Hello" "World" title_slide_layout);
    reflexivity.
Defined.

(** C2, counterexample: on the blank deck, [add_title_slide] with an empty
    title returns normally and the slide count goes from 0 to 1. *)
Lemma add_title_slide_accepts_empty_title :
  snd (add_title_slide "" "" Presentation_new) = Ok tt
  /\ slide_count Presentation_new = 0%nat
  /\ slide_count (fst (add_title_slide "" "" Presentation_new)) = 1%nat.
Proof. repeat split. Qed.


Lemma add_title_slide_empty_title_witness :
  snd (add_title_slide "" "World" Presentation_new)
  = snd (add_title_slide "Hello" "World" Presentation_new)
  /\ slide_count (fst (add_title_slide "" "World" Presentation_new))
     = slide_count (fst (add_title_slide "Hello" "World" Presentation_new))
  /\ forall layout,
       slide_layouts Presentation_new !! 0%nat = Some layout ->
       has_placeholder 0 layout = true ->
       title_slide_appended Presentation_new
         (fst (add_title_slide "" "World" Presentation_new)) ""
       /\ (truthy "World" = false
           \/ (has_placeholder 1 layout = true /\ xml_text "World" = true) ->
           snd (add_title_slide "" "World" Presentation_new) = Ok tt).
Proof.
  apply (add_title_slide_empty_title Presentation_new "World" "Hello"). reflexivity.
Defined.

(** C9, counterexample: on a deck whose first layout has no title
    placeholder, [add_title_slide] with a non-empty title and an empty
    subtitle does not set the title of the new slide: the slide is appended
    as cloned, without title, and the call raises. *)
Lemma add_title_slide_sets_no_title :
  truthy "Intro" = true
  /\ fst (add_title_slide "Intro" "" blank_first_deck)
     = append_slide blank_first_deck
         (new_slide {| layout_name := "Blank"; layout_placeholders := [] |})
  /\ snd (add_title_slide "Intro" "" blank_first_deck) = Raise AttributeError
  /\ slide_title (new_slide {| layout_name := "Blank"; layout_placeholders := [] |})
     = None.
Proof. repeat split. Qed.

Lemma add_title_slide_subtitle_frame_witness :
  (slide_layouts Presentation_new !! 0%nat = None
   /\ fst (add_title_slide "Hello" "" Presentation_new) = Presentation_new)
  \/ exists layout s,
       slide_layouts Presentation_new !! 0%nat = Some layout
       /\ fst (add_title_slide "Hello" "" Presentation_new)
          = append_slide Presentation_new s
       /\ slide_layout s = layout
       /\ pictures s = []
       /\ (forall j, j <> 0%nat -> j <> 1%nat \/ truthy "" = false ->
             find_placeholder j (placeholders s)
             = find_placeholder j (placeholders (new_slide layout)))
       /\ (has_placeholder 0 layout = true -> xml_text "Hello" = true ->
           truthy "" = false ->
             snd (add_title_slide "Hello" "" Presentation_new) = Ok tt)
       /\ (has_placeholder 0 layout = true -> kept_text "Hello" = true ->
             slide_title s = Some "Hello").
Proof.
  apply (add_title_slide_subtitle_frame Presentation_new "Hello" "").
  reflexivity.
Defined.

(** C8, counterexample: three names that are absent from the template
    directory and do not make [create_presentation] fail with
    [FileNotFoundError].  A name that is an absolute path is loaded from
    where it points, outside the template directory; the name [.] finds
    the template directory itself, and opening it fails in another way;
    and the empty name gives the blank deck. *)
Lemma create_presentation_outside_catalog :
  (create_presentation sample_reader outside_catalog (Some "/srv/decks/plan.pptx")
   = Ok blank_first_deck
   /\ catalog_entry outside_catalog "/srv/decks/plan.pptx" = None
   /\ catalog_entry outside_catalog "srv/decks/plan.pptx" = None
   /\ catalog_entry outside_catalog "plan.pptx" = None)
  /\ (create_presentation sample_reader outside_catalog (Some ".")
      = Raise IsADirectoryError
      /\ catalog_entry outside_catalog "." = None)
  /\ (create_presentation sample_reader outside_catalog (Some "") = Ok Presentation_new
      /\ catalog_entry outside_catalog "" = None).
Proof. repeat split. Qed.

Lemma create_presentation_catalog_witness :
  ((exists msg, create_presentation sample_reader sample_catalog (Some "business.pptx")
                = Raise (FileNotFoundError msg))
   <-> catalog_entry sample_catalog "business.pptx" = None)
  /\ (catalog_entry sample_catalog "business.pptx" = None ->
      create_presentation sample_reader sample_catalog (Some "business.pptx")
      = Raise (FileNotFoundError ("Шаблон " ++ "business.pptx" ++ " не найден.")))
  /\ (forall data prs,
        catalog_entry sample_catalog "business.pptx" = Some (File data) ->
        sample_reader data = Some prs ->
        create_presentation sample_reader sample_catalog (Some "business.pptx") = Ok prs)
  /\ create_presentation sample_reader sample_catalog None = Ok Presentation_new
  /\ create_presentation sample_reader sample_catalog (Some "") = Ok Presentation_new
  /\ slide_count Presentation_new = 0%nat.
Proof.
  apply (create_presentation_catalog sample_reader sample_catalog "business.pptx").
  reflexivity.
Defined.

Lemma handle_document_too_large_witness :
  Config.MAX_FILE_SIZE = 500 * 1024 * 1024
  /\ handle_document sample_reader complete_download
       (sample_message (Some (600 * 1024 * 1024))) sample_world
     = ({| fs := fs sample_world; net := net sample_world;
           sent := sent sample_world ++ [FileTooLarge 500] |}, Ok tt).
Proof.
  apply (handle_document_too_large sample_reader complete_download
           (sample_message (Some (600 * 1024 * 1024)))
           (sample_document (Some (600 * 1024 * 1024)))
           sample_world (600 * 1024 * 1024));
    [reflexivity|reflexivity|lia].
Defined.

Lemma handle_document_strict_ceiling_witness :
  let w' := fst (handle_document sample_reader complete_download
                   (sample_message (Some (500 * 1024 * 1024))) sample_world) in
  (rejected_too_large sample_world w' <-> 500 * 1024 * 1024 > Config.MAX_FILE_SIZE)
  /\ (proceeds_to_ingestion (sample_document (Some (500 * 1024 * 1024))) sample_world w'
      <-> 500 * 1024 * 1024 <= Config.MAX_FILE_SIZE)
  /\ (500 * 1024 * 1024 = 500 * 1024 * 1024 ->
      proceeds_to_ingestion (sample_document (Some (500 * 1024 * 1024))) sample_world w'
      /\ ~ rejected_too_large sample_world w').
Proof.
  apply (handle_document_strict_ceiling sample_reader complete_download
           (sample_message (Some (500 * 1024 * 1024)))
           (sample_document (Some (500 * 1024 * 1024)))
           sample_world (500 * 1024 * 1024));
    reflexivity.
Defined.


(** ** More on the append operations *)

(** Bullets without escaped character and without line feed are stored
    as they are. *)
Lemma stored_paragraphs_kept (content : list string) :
  forallb kept_line content = true ->
  map stored_paragraph content = map bullet_paragraph content.
Proof.
  induction content as [|point rest IH]; [reflexivity|].
  cbn [forallb map]. intros H. apply andb_true_iff in H as [Hp Hrest].
  rewrite (IH Hrest). unfold stored_paragraph at 1, bullet_paragraph at 1.
  unfold kept_line, kept_text in Hp.
  apply andb_true_iff in Hp as [Hp Hlf]. apply andb_true_iff in Hp as [Hp _].
  apply negb_true_iff in Hlf.
  rewrite (paragraph_text_kept point Hp Hlf). reflexivity.
Qed.

(** The loop over the bullets, run on the last slide: it cannot fail once
    the body placeholder is there, and adds one paragraph per bullet, in
    order, after what the text frame held. *)
Lemma bullets_loop layouts (old : list Slide) (content : list string) :
  forall (s : Slide) (ph : Placeholder),
    find_placeholder 1 (placeholders s) = Some ph ->
    exists s',
      for_each content (fun point =>
        placeholders_update (length old) 1 (add_paragraph_with point (Pt 18)))
        {| slide_layouts := layouts; slides := old ++ [s] |}
      = ({| slide_layouts := layouts; slides := old ++ [s'] |}, Ok tt)
      /\ find_placeholder 1 (placeholders s')
         = Some {| ph_idx := ph_idx ph;
                   text_frame := text_frame ph ++ map stored_paragraph content |}
      /\ (forall j, j <> 1%nat ->
            find_placeholder j (placeholders s') = find_placeholder j (placeholders s))
      /\ slide_layout s' = slide_layout s
      /\ pictures s' = pictures s.
Proof.
  induction content as [|point rest IH]; intros s ph Hfind.
  - exists s. simpl. rewrite app_nil_r. destruct ph. auto.
  - destruct (update_placeholder_Some 1 (add_paragraph_with point (Pt 18)) _ _ Hfind)
      as (phs' & Hupd & Hsame & Hother).
    destruct (IH {| slide_layout := slide_layout s; placeholders := phs';
                    pictures := pictures s |} _ Hsame)
      as (s' & Hrun & Hbody & Hframe & Hlayout & Hpics).
    exists s'. split; [|split; [|split; [|split]]].
    + simpl. unfold bind at 1. unfold placeholders_update at 1.
      rewrite with_slide_last, Hupd. exact Hrun.
    + rewrite Hbody. simpl. unfold add_paragraph_with, stored_paragraph, Pt.
      rewrite <- app_assoc. reflexivity.
    + intros j Hj. rewrite (Hframe j Hj). simpl. apply Hother, Hj.
    + exact Hlayout.
    + exact Hpics.
Qed.

(** All runs of [add_content_slide] up to the loop. *)
Lemma add_content_slide_run (title : string) (content : list string)
    (prs : Presentation) :
  add_content_slide title content prs
  = match slide_layouts prs !! 1%nat with
    | None => (prs, Raise IndexError)
    | Some layout =>
        match update_placeholder 0 (set_text title) (placeholders (new_slide layout)) with
        | None => (append_slide prs (new_slide layout), Raise AttributeError)
        | Some phs =>
            match find_placeholder 1 phs with
            | None => (append_slide prs (slide_with layout phs), Raise KeyError)
            | Some _ =>
                for_each content (fun point =>
                  placeholders_update (length (slides prs)) 1
                    (add_paragraph_with point (Pt 18)))
                  (append_slide prs (slide_with layout phs))
            end
        end
    end.
Proof.
  unfold add_content_slide, bind, slide_layouts_getitem.
  destruct (slide_layouts prs !! 1%nat) as [layout|]; [|reflexivity].
  unfold add_slide, shapes_title_set_text, placeholders_getitem.
  rewrite with_slide_last.
  destruct (update_placeholder 0 (set_text title) (placeholders (new_slide layout)))
    as [phs|]; [|reflexivity].
  rewrite with_slide_last. simpl.
  destruct (find_placeholder 1 phs); reflexivity.
Qed.

(** All runs of [add_image_slide]. *)
Lemma add_image_slide_run (is_image : list byte -> bool) (files : gmap string entry)
    (title image_path : string) (prs : Presentation) :
  add_image_slide is_image files title image_path prs
  = match slide_layouts prs !! 5%nat with
    | None => (prs, Raise IndexError)
    | Some layout =>
        match update_placeholder 0 (set_text title) (placeholders (new_slide layout)) with
        | None => (append_slide prs (new_slide layout), Raise AttributeError)
        | Some phs =>
            match entry_at files (Path_str image_path) with
            | None =>
                (append_slide prs (slide_with layout phs),
                 Raise (FileNotFoundError
                   ("Изображение по пути " ++ image_path ++ " не найдено.")))
            | Some Dir => (append_slide prs (slide_with layout phs), Raise IsADirectoryError)
            | Some (File blob) =>
                if is_image blob then
                  (append_slide prs
                     {| slide_layout := layout; placeholders := phs;
                        pictures := [{| pic_blob := blob; pic_left := Inches 1;
                                        pic_top := Inches 1 |}] |}, Ok tt)
                else (append_slide prs (slide_with layout phs), Raise UnidentifiedImageError)
            end
        end
    end.
Proof.
  unfold add_image_slide, bind, slide_layouts_getitem.
  destruct (slide_layouts prs !! 5%nat) as [layout|]; [|reflexivity].
  unfold add_slide, shapes_title_set_text. rewrite with_slide_last.
  destruct (update_placeholder 0 (set_text title) (placeholders (new_slide layout)))
    as [phs|]; [|reflexivity].
  unfold Path_exists, add_picture.
  destruct (entry_at files (Path_str image_path)) as [[|blob]|] eqn:Hfile;
    [| |reflexivity].
  - rewrite with_slide_last. reflexivity.
  - rewrite with_slide_last. simpl. destruct (is_image blob); reflexivity.
Qed.

(** The success case of [add_content_slide]. *)
Lemma add_content_slide_ok (title : string) (content : list string)
    (prs : Presentation) (layout : SlideLayout) :
  slide_layouts prs !! 1%nat = Some layout ->
  has_placeholder 0 layout = true ->
  has_placeholder 1 layout = true ->
  exists s,
    add_content_slide title content prs = (append_slide prs s, Ok tt)
    /\ slide_title s = Some (stored_text title)
    /\ find_placeholder 1 (placeholders s)
       = Some {| ph_idx := 1;
                 text_frame := empty_paragraph :: map stored_paragraph content |}
    /\ slide_layout s = layout
    /\ pictures s = [].
Proof.
  intros Hlayout Htitle Hbody.
  rewrite add_content_slide_run, Hlayout.
  destruct (title_write layout title Htitle) as (phs & -> & Hread & Hother).
  assert (Hfind : find_placeholder 1 phs = Some (clone_placeholder 1)).
  { rewrite (Hother 1%nat) by discriminate. simpl.
    rewrite find_placeholder_clone. unfold has_placeholder in Hbody.
    rewrite Hbody. reflexivity. }
  rewrite Hfind.
  destruct (bullets_loop (slide_layouts prs) (slides prs) content
              (slide_with layout phs) _ Hfind)
    as (s' & Hrun & Hbody' & Hframe & Hl & Hp).
  exists s'. split; [exact Hrun|]. split; [|split; [|split]].
  - unfold slide_title in *. rewrite (Hframe 0%nat) by discriminate. exact Hread.
  - rewrite Hbody'. reflexivity.
  - exact Hl.
  - exact Hp.
Qed.

(** The success case of [add_image_slide]. *)
Lemma add_image_slide_ok (is_image : list byte -> bool) (files : gmap string entry)
    (title image_path : string) (blob : list byte) (prs : Presentation)
    (layout : SlideLayout) :
  slide_layouts prs !! 5%nat = Some layout ->
  has_placeholder 0 layout = true ->
  entry_at files (Path_str image_path) = Some (File blob) ->
  is_image blob = true ->
  exists s,
    add_image_slide is_image files title image_path prs = (append_slide prs s, Ok tt)
    /\ slide_title s = Some (stored_text title)
    /\ pictures s = [{| pic_blob := blob; pic_left := 914400; pic_top := 914400 |}]
    /\ slide_layout s = layout.
Proof.
  intros Hlayout Htitle Hfile Himage.
  rewrite add_image_slide_run, Hlayout, Hfile, Himage.
  destruct (title_write layout title Htitle) as (phs & -> & Hread & _).
  eexists. split; [reflexivity|]. split; [exact Hread|]. split; reflexivity.
Qed.

(** X1: on a deck whose second layout has a title and a body placeholder,
    [add_content_slide] with a title and bullets that the slide library
    accepts and stores without escape, the bullets without line feed,
    returns normally and appends one slide with the given title.  The body
    keeps the empty paragraph the placeholder starts with and gets one
    paragraph per bullet after it, in order, each with the bullet as its
    text and at 18 points: n bullets give n + 1 paragraphs, and no bullets
    leave the body as cloned. *)
Theorem add_content_slide_appends (title : string) (content : list string)
    (prs : Presentation) (layout : SlideLayout) :
  slide_layouts prs !! 1%nat = Some layout ->
  has_placeholder 0 layout = true ->
  has_placeholder 1 layout = true ->
  kept_text title = true ->
  forallb kept_line content = true ->
  exists s,
    add_content_slide title content prs = (append_slide prs s, Ok tt)
    /\ slide_title s = Some title
    /\ option_map text_frame (find_placeholder 1 (placeholders s))
       = Some (empty_paragraph :: map bullet_paragraph content)
    /\ (forall tf, option_map text_frame (find_placeholder 1 (placeholders s)) = Some tf ->
          length tf = S (length content))
    /\ (content = [] ->
          find_placeholder 1 (placeholders s)
          = find_placeholder 1 (placeholders (new_slide layout))).
Proof.
  intros Hlayout Htitle Hbody Hkept Hbullets.
  destruct (add_content_slide_ok title content prs layout Hlayout Htitle Hbody)
    as (s & Hrun & Hread & Hfind & _ & _).
  rewrite (stored_text_kept title Hkept) in Hread.
  rewrite (stored_paragraphs_kept content Hbullets) in Hfind.
  exists s. split; [exact Hrun|]. split; [exact Hread|]. rewrite Hfind.
  split; [reflexivity|]. split.
  - intros tf [= <-]. simpl. rewrite length_map. reflexivity.
  - intros ->. simpl. rewrite find_placeholder_clone.
    unfold has_placeholder in Hbody. rewrite Hbody. reflexivity.
Qed.

(** X2: on a deck whose second layout has a title placeholder and no
    placeholder with idx 1, [add_content_slide] with a title that the
    slide library accepts and stores without escape raises [KeyError]
    whatever the bullets, after it appended the slide and wrote its title:
    the deck has grown by that slide. *)
Theorem add_content_slide_without_body (title : string) (content : list string)
    (prs : Presentation) (layout : SlideLayout) :
  slide_layouts prs !! 1%nat = Some layout ->
  has_placeholder 0 layout = true ->
  has_placeholder 1 layout = false ->
  kept_text title = true ->
  exists s,
    add_content_slide title content prs = (append_slide prs s, Raise KeyError)
    /\ slide_title s = Some title
    /\ slide_count (append_slide prs s) = S (slide_count prs).
Proof.
  intros Hlayout Htitle Hbody Hkept.
  rewrite add_content_slide_run, Hlayout.
  destruct (title_write layout title Htitle) as (phs & -> & Hread & Hother).
  rewrite (stored_text_kept title Hkept) in Hread.
  assert (Hfind : find_placeholder 1 phs = None).
  { rewrite (Hother 1%nat) by discriminate. simpl.
    rewrite find_placeholder_clone. unfold has_placeholder in Hbody.
    rewrite Hbody. reflexivity. }
  rewrite Hfind. exists (slide_with layout phs).
  split; [reflexivity|]. split; [exact Hread|].
  unfold slide_count, append_slide. simpl. rewrite length_app. simpl. lia.
Qed.

(** X3: on a deck whose sixth layout has a title placeholder,
    [add_image_slide] with a title that the slide library accepts and
    stores without escape and the path of a file the imaging library
    accepts returns normally and appends one slide with the given title and
    exactly one picture: the bytes of the file at that path, one inch
    (914400 EMU) from the left and from the top. *)
Theorem add_image_slide_places_image (is_image : list byte -> bool)
    (files : gmap string entry) (title image_path : string) (blob : list byte)
    (prs : Presentation) (layout : SlideLayout) :
  slide_layouts prs !! 5%nat = Some layout ->
  has_placeholder 0 layout = true ->
  kept_text title = true ->
  entry_at files (Path_str image_path) = Some (File blob) ->
  is_image blob = true ->
  exists s,
    add_image_slide is_image files title image_path prs = (append_slide prs s, Ok tt)
    /\ slide_title s = Some title
    /\ pictures s = [{| pic_blob := blob; pic_left := 914400; pic_top := 914400 |}]
    /\ slide_count (append_slide prs s) = S (slide_count prs).
Proof.
  intros Hlayout Htitle Hkept Hfile Himage.
  destruct (add_image_slide_ok is_image files title image_path blob prs layout
              Hlayout Htitle Hfile Himage) as (s & Hrun & Hread & Hpics & _).
  rewrite (stored_text_kept title Hkept) in Hread.
  exists s. split; [exact Hrun|]. split; [exact Hread|]. split; [exact Hpics|].
  unfold slide_count, append_slide. simpl. rewrite length_app. simpl. lia.
Qed.

(** X4: each append operation indexes the deck's layouts at a fixed
    position, 0, 1 and 5; on a deck with fewer than 1, 2 and 6 layouts it raises
    [IndexError] and leaves the deck exactly as it was. *)
Theorem append_needs_layouts (is_image : list byte -> bool)
    (files : gmap string entry) (prs : Presentation) :
  ((length (slide_layouts prs) < 1)%nat ->
   forall title subtitle,
     add_title_slide title subtitle prs = (prs, Raise IndexError))
  /\ ((length (slide_layouts prs) < 2)%nat ->
      forall title content,
        add_content_slide title content prs = (prs, Raise IndexError))
  /\ ((length (slide_layouts prs) < 6)%nat ->
      forall title image_path,
        add_image_slide is_image files title image_path prs = (prs, Raise IndexError)).
Proof.
  split; [|split]; intros Hlen **.
  - rewrite add_title_slide_run, lookup_ge_None_2 by lia. reflexivity.
  - rewrite add_content_slide_run, lookup_ge_None_2 by lia. reflexivity.
  - rewrite add_image_slide_run, lookup_ge_None_2 by lia. reflexivity.
Qed.

Lemma appends_at_most_one_same (prs : Presentation) (e : exn) :
  appends_at_most_one prs (prs, Raise e).
Proof.
  unfold appends_at_most_one. simpl.
  split; [reflexivity|]. split; [left; reflexivity|discriminate].
Qed.

Lemma appends_at_most_one_grown (prs : Presentation) (s : Slide) (r : outcome unit) :
  appends_at_most_one prs (append_slide prs s, r).
Proof.
  unfold appends_at_most_one. simpl.
  split; [reflexivity|]. split; [right|intros _]; exists s; reflexivity.
Qed.

(** X5: whatever their arguments and whether they return or raise, the
    three append operations never change the deck's layouts, never remove,
    reorder or alter a slide that was in the deck, and add at most one slide,
    at the end; when they return normally they added exactly one. *)
Theorem append_operations_keep_slides (is_image : list byte -> bool)
    (files : gmap string entry) (prs : Presentation) :
  (forall title subtitle,
     appends_at_most_one prs (add_title_slide title subtitle prs))
  /\ (forall title content,
        appends_at_most_one prs (add_content_slide title content prs))
  /\ (forall title image_path,
        appends_at_most_one prs (add_image_slide is_image files title image_path prs)).
Proof.
  split; [|split].
  - intros title subtitle. rewrite add_title_slide_run.
    destruct (slide_layouts prs !! 0%nat) as [layout|];
      [|apply appends_at_most_one_same].
    destruct (update_placeholder 0 _ _) as [phs|]; [|apply appends_at_most_one_grown].
    destruct (truthy subtitle); [|apply appends_at_most_one_grown].
    destruct (update_placeholder 1 _ _); apply appends_at_most_one_grown.
  - intros title content. rewrite add_content_slide_run.
    destruct (slide_layouts prs !! 1%nat) as [layout|];
      [|apply appends_at_most_one_same].
    destruct (update_placeholder 0 _ _) as [phs|]; [|apply appends_at_most_one_grown].
    destruct (find_placeholder 1 phs) as [ph|] eqn:Hfind;
      [|apply appends_at_most_one_grown].
    destruct (bullets_loop (slide_layouts prs) (slides prs) content
                (slide_with layout phs) ph Hfind) as (s' & Hrun & _).
    unfold append_slide at 1. rewrite Hrun.
    apply (appends_at_most_one_grown prs s').
  - intros title image_path. rewrite add_image_slide_run.
    destruct (slide_layouts prs !! 5%nat) as [layout|];
      [|apply appends_at_most_one_same].
    destruct (update_placeholder 0 _ _) as [phs|]; [|apply appends_at_most_one_grown].
    destruct (entry_at files (Path_str image_path)) as [[|blob]|];
      try apply appends_at_most_one_grown.
    destruct (is_image blob); apply appends_at_most_one_grown.
Qed.

(** X6: on a deck whose first layout has a title placeholder and a
    placeholder with idx 1, [add_title_slide] with a title and a non-empty
    subtitle that the slide library accepts and stores without escape
    returns normally and the appended slide carries the title in its title
    placeholder and the subtitle in placeholder 1. *)
Theorem add_title_slide_writes_subtitle (title subtitle : string)
    (prs : Presentation) (layout : SlideLayout) :
  slide_layouts prs !! 0%nat = Some layout ->
  has_placeholder 0 layout = true ->
  has_placeholder 1 layout = true ->
  truthy subtitle = true ->
  kept_text title = true ->
  kept_text subtitle = true ->
  exists s,
    add_title_slide title subtitle prs = (append_slide prs s, Ok tt)
    /\ slide_title s = Some title
    /\ placeholder_text 1 s = Some subtitle.
Proof.
  intros Hlayout Htitle Hsub Htruthy Hkept Hkept'.
  rewrite add_title_slide_run, Hlayout, Htruthy.
  destruct (title_write layout title Htitle) as (phs & -> & Hread & Hother).
  rewrite (stored_text_kept title Hkept) in Hread.
  assert (Hfind : find_placeholder 1 phs = Some (clone_placeholder 1)).
  { rewrite (Hother 1%nat) by discriminate. simpl.
    rewrite find_placeholder_clone. unfold has_placeholder in Hsub.
    rewrite Hsub. reflexivity. }
  destruct (update_placeholder_Some 1 (set_text subtitle) _ _ Hfind)
    as (phs' & -> & Hsame & Hother').
  exists (slide_with layout phs'). split; [reflexivity|]. split.
  - unfold slide_title in *. simpl in *.
    rewrite (Hother' 0%nat) by discriminate. exact Hread.
  - unfold placeholder_text. simpl. rewrite Hsame. simpl.
    f_equal. apply (stored_text_kept subtitle Hkept').
Qed.

(** X7: on a deck whose first layout has a title placeholder and no
    placeholder with idx 1, [add_title_slide] with a title that the slide
    library accepts and stores without escape and a non-empty subtitle
    raises [KeyError] after it appended the slide and wrote the title: the
    deck has grown by a slide that carries the title. *)
Theorem add_title_slide_without_subtitle_placeholder (title subtitle : string)
    (prs : Presentation) (layout : SlideLayout) :
  slide_layouts prs !! 0%nat = Some layout ->
  has_placeholder 0 layout = true ->
  has_placeholder 1 layout = false ->
  truthy subtitle = true ->
  kept_text title = true ->
  exists s,
    add_title_slide title subtitle prs = (append_slide prs s, Raise KeyError)
    /\ slide_title s = Some title
    /\ slide_count (append_slide prs s) = S (slide_count prs).
Proof.
  intros Hlayout Htitle Hsub Htruthy Hkept.
  rewrite add_title_slide_run, Hlayout, Htruthy.
  destruct (title_write layout title Htitle) as (phs & -> & Hread & Hother).
  rewrite (stored_text_kept title Hkept) in Hread.
  assert (Hfind : find_placeholder 1 phs = None).
  { rewrite (Hother 1%nat) by discriminate. simpl.
    rewrite find_placeholder_clone. unfold has_placeholder in Hsub.
    rewrite Hsub. reflexivity. }
  rewrite (update_placeholder_None 1 _ phs Hfind).
  exists (slide_with layout phs). split; [reflexivity|]. split; [exact Hread|].
  unfold slide_count, append_slide. simpl. rewrite length_app. simpl. lia.
Qed.

(** X8: on any deck built on the default template, whatever slides it
    holds, a title slide, a content slide and an image slide (with an
    existing image) added one after the other, with texts that the slide
    library accepts and titles that it stores without escape, all succeed,
    and leave the deck with exactly these three slides after the old ones,
    in the order of the calls, each with its title. *)
Theorem append_operations_compose (is_image : list byte -> bool)
    (files : gmap string entry) (prs : Presentation)
    (t1 subtitle t2 t3 image_path : string) (content : list string)
    (blob : list byte) :
  slide_layouts prs = default_layouts ->
  entry_at files (Path_str image_path) = Some (File blob) ->
  is_image blob = true ->
  kept_text t1 = true -> kept_text t2 = true -> kept_text t3 = true ->
  xml_text subtitle = true -> forallb xml_text content = true ->
  exists s1 s2 s3,
    (add_title_slide t1 subtitle ;;
     add_content_slide t2 content ;;
     add_image_slide is_image files t3 image_path)%py prs
    = ({| slide_layouts := default_layouts;
          slides := slides prs ++ [s1; s2; s3] |}, Ok tt)
    /\ map slide_title [s1; s2; s3] = [Some t1; Some t2; Some t3].
Proof.
  intros Hlayouts Hfile Himage Hp1 Hp2 Hp3 _ _.
  destruct (add_title_slide_ok t1 subtitle prs title_slide_layout)
    as (s1 & Hrun1 & Hread1);
    [rewrite Hlayouts; reflexivity|reflexivity|right; reflexivity|].
  destruct (add_content_slide_ok t2 content (append_slide prs s1)
              {| layout_name := "Title and Content"; layout_placeholders := [0; 1]%nat |})
    as (s2 & Hrun2 & Hread2 & _);
    [simpl; rewrite Hlayouts; reflexivity|reflexivity|reflexivity|].
  destruct (add_image_slide_ok is_image files t3 image_path blob
              (append_slide (append_slide prs s1) s2)
              {| layout_name := "Title Only"; layout_placeholders := [0%nat] |})
    as (s3 & Hrun3 & Hread3 & _);
    [simpl; rewrite Hlayouts; reflexivity|reflexivity|exact Hfile|exact Himage|].
  exists s1, s2, s3. split.
  - unfold bind. rewrite Hrun1, Hrun2, Hrun3.
    unfold append_slide. simpl. rewrite Hlayouts, <- !app_assoc. reflexivity.
  - simpl. rewrite Hread1, Hread2, Hread3.
    rewrite !stored_text_kept by assumption. reflexivity.
Qed.


(** ** Where uploads are stored *)

(** Splitting at the first underscore: the part before it has none. *)
Lemma underscore_split (a b n1 n2 : string) :
  has_char "_"%char a = false -> has_char "_"%char b = false ->
  a ++ String "_"%char n1 = b ++ String "_"%char n2 -> a = b /\ n1 = n2.
Proof.
  revert b. induction a as [|c a IH]; intros [|d b]; simpl; intros Ha Hb Heq.
  - injection Heq as <-. split; reflexivity.
  - injection Heq as <- _. apply orb_false_iff in Hb as [Hd _]. discriminate.
  - injection Heq as -> _. apply orb_false_iff in Ha as [Hc _]. discriminate.
  - injection Heq as <- Heq.
    apply orb_false_iff in Ha as [_ Ha]. apply orb_false_iff in Hb as [_ Hb].
    destruct (IH b Ha Hb Heq) as [-> ->]. split; reflexivity.
Qed.

(** X9: for file names without a slash, the path an upload is written to
    is [downloads/<user id>_<file name>], one entry directly inside the
    download directory, and uploads of different users, or of different
    names by one user, never share a path. *)
Theorem upload_path_unique (m1 m2 : Message) (d1 d2 : Document) :
  has_char "/" (file_name d1) = false ->
  has_char "/" (file_name d2) = false ->
  upload_path m1 d1
  = "downloads/" ++ pretty (from_user_id m1) ++ "_" ++ file_name d1
  /\ (from_user_id m1 <> from_user_id m2 \/ file_name d1 <> file_name d2 ->
      upload_path m1 d1 <> upload_path m2 d2).
Proof.
  intros Hn1 Hn2. split; [apply upload_path_shape, Hn1|].
  rewrite !upload_path_shape by assumption. intros Hdiff Heq.
  apply (inj (String.app "downloads/")) in Heq.
  destruct (pretty_Z_chars (from_user_id m1)) as [_ H1].
  destruct (pretty_Z_chars (from_user_id m2)) as [_ H2].
  destruct (underscore_split _ _ _ _ H1 H2 Heq) as [Hid Hname].
  apply (inj pretty) in Hid. destruct Hdiff as [Hd|Hd]; contradiction.
Qed.

(** A slash in the file name is taken as a path separator, and the join
    normalises the path: two names that differ by a doubled slash are
    stored at one path, below the download directory. *)
Example upload_path_normalised :
  upload_path (sample_message None) nested_document = "downloads/42_a/b.pptx"
  /\ upload_path (sample_message None) doubled_slash_document = "downloads/42_a/b.pptx".
Proof. split; reflexivity. Qed.

(** ** More on [handle_document] *)

Lemma handle_document_no_document (load_pptx : list byte -> option Presentation)
    (tg : Telegram) (message : Message) (w : World) :
  document message = None ->
  handle_document load_pptx tg message w = (w, Ok tt).
Proof. intros Hdoc. unfold handle_document. rewrite Hdoc. reflexivity. Qed.

Lemma handle_document_no_size (load_pptx : list byte -> option Presentation)
    (tg : Telegram) (message : Message) (doc : Document) (w : World) :
  document message = Some doc ->
  file_size doc = None ->
  handle_document load_pptx tg message w = (w, Raise TypeError).
Proof.
  intros Hdoc Hsize. unfold handle_document. rewrite Hdoc.
  unfold bind, lift, py_gt. rewrite Hsize. reflexivity.
Qed.

(** X10: a message without document has no effect at all, and a document
    without declared size makes the comparison with the ceiling raise
    [TypeError] before anything is requested, stored or answered. *)
Theorem handle_document_without_size (load_pptx : list byte -> option Presentation)
    (tg : Telegram) (message : Message) (w : World) :
  (forall doc,
     document message = Some doc -> file_size doc = None ->
     handle_document load_pptx tg message w = (w, Raise TypeError))
  /\ (document message = None ->
      handle_document load_pptx tg message w = (w, Ok tt)).
Proof.
  split.
  - intros doc. apply handle_document_no_size.
  - apply handle_document_no_document.
Qed.

(** X11: [handle_document] touches one path at most.  For a file name
    without a slash, and however the call ends, every path other than the
    upload's own destination holds afterwards what it held before. *)
Theorem handle_document_other_paths (load_pptx : list byte -> option Presentation)
    (tg : Telegram) (message : Message) (doc : Document) (w : World) (p : string) :
  document message = Some doc ->
  has_char "/" (file_name doc) = false ->
  p <> "downloads/" ++ pretty (from_user_id message) ++ "_" ++ file_name doc ->
  fs (fst (handle_document load_pptx tg message w)) !! p = fs w !! p.
Proof.
  intros Hdoc Hname Hp. rewrite <- (upload_path_shape message doc Hname) in Hp.
  destruct (file_size doc) as [size|] eqn:Hsize;
    [|rewrite (handle_document_no_size load_pptx tg message doc w Hdoc Hsize);
      reflexivity].
  destruct (Z_gt_le_dec size Config.MAX_FILE_SIZE) as [Hgt|Hle].
  { rewrite (handle_document_rejected load_pptx tg message doc w Hdoc size Hsize Hgt).
    reflexivity. }
  rewrite (handle_document_accepted load_pptx tg message doc w Hdoc size Hsize Hle).
  unfold gave_up.
  destruct (get_file_result tg) as [remote|]; [|reflexivity].
  destruct (storage_ok tg); [|reflexivity].
  destruct (fs w !! upload_path message doc) as [[|old]|]; [reflexivity| |];
    (cbv zeta; destruct (download_completes tg);
     [destruct (load_pptx [])|];
     simpl; apply lookup_insert_ne; congruence).
Qed.

(** X12: an upload that passes the size check, is handed out and whose
    destination can be opened ends with the generic error answer, whatever
    the download delivers: the bytes of the download never reach the
    destination, which is left as an empty file, and the slide library
    reads no presentation from an empty file, so the answer that reports
    the slide count is not sent.  The chat service was asked for the file
    and for its download, in that order. *)
Theorem handle_document_stores_nothing (load_pptx : list byte -> option Presentation)
    (tg : Telegram) (message : Message) (doc : Document) (w : World)
    (size : Z) (remote : string) :
  document message = Some doc ->
  file_size doc = Some size ->
  size <= Config.MAX_FILE_SIZE ->
  get_file_result tg = Some remote ->
  storage_ok tg = true ->
  fs w !! upload_path message doc <> Some Dir ->
  load_pptx [] = None ->
  handle_document load_pptx tg message w
  = ({| fs := <[upload_path message doc := File []]> (fs w);
        net := net w ++ [GetFile (file_id doc); DownloadFile remote];
        sent := sent w ++ [ProcessingError] |}, Ok tt).
Proof.
  intros Hdoc Hsize Hle Hget Hstore Hnodir Hempty.
  rewrite (handle_document_accepted load_pptx tg message doc w Hdoc size Hsize Hle).
  rewrite Hget, Hstore, Hempty. unfold gave_up.
  destruct (fs w !! upload_path message doc) as [[|old]|]; [contradiction| |];
    (cbv zeta; destruct (download_completes tg); reflexivity).
Qed.

(** X15: two documents that differ only in their declared size, both at
    most the ceiling, leave the same files, the same requests to the chat
    service and the same answers, and end the call in the same way. *)
Theorem handle_document_size_advisory (load_pptx : list byte -> option Presentation)
    (tg : Telegram) (uid : Z) (id name : string) (size1 size2 : Z) (w : World) :
  size1 <= Config.MAX_FILE_SIZE ->
  size2 <= Config.MAX_FILE_SIZE ->
  handle_document load_pptx tg
    {| from_user_id := uid;
       document := Some {| file_id := id; file_name := name; file_size := Some size1 |} |} w
  = handle_document load_pptx tg
      {| from_user_id := uid;
         document := Some {| file_id := id; file_name := name; file_size := Some size2 |} |} w.
Proof.
  intros H1 H2.
  rewrite (handle_document_accepted load_pptx tg
             {| from_user_id := uid;
                document := Some {| file_id := id; file_name := name;
                                    file_size := Some size1 |} |}
             {| file_id := id; file_name := name; file_size := Some size1 |}
             w eq_refl size1 eq_refl H1).
  rewrite (handle_document_accepted load_pptx tg
             {| from_user_id := uid;
                document := Some {| file_id := id; file_name := name;
                                    file_size := Some size2 |} |}
             {| file_id := id; file_name := name; file_size := Some size2 |}
             w eq_refl size2 eq_refl H2).
  reflexivity.
Qed.

(** X16: when the chat service does not hand out the file, or the storage
    refuses to open the destination, the upload ends with the generic error
    answer and no file has been created or changed; in the first case the
    download is not even requested. *)
Theorem handle_document_fails_before_write (load_pptx : list byte -> option Presentation)
    (tg : Telegram) (message : Message) (doc : Document) (w : World) (size : Z) :
  document message = Some doc ->
  file_size doc = Some size ->
  size <= Config.MAX_FILE_SIZE ->
  get_file_result tg = None \/ storage_ok tg = false ->
  handle_document load_pptx tg message w
  = ({| fs := fs w; net := net w ++ [GetFile (file_id doc)];
        sent := sent w ++ [ProcessingError] |}, Ok tt).
Proof.
  intros Hdoc Hsize Hle Hfail.
  rewrite (handle_document_accepted load_pptx tg message doc w Hdoc size Hsize Hle).
  unfold gave_up.
  destruct (get_file_result tg) as [remote|]; [|reflexivity].
  destruct Hfail as [Hget|Hstore]; [discriminate|].
  rewrite Hstore. reflexivity.
Qed.

(** ** Removing a substring *)

Lemma prefix_app_self (u s : string) : String.prefix u (u ++ s) = true.
Proof.
  induction u as [|c u IH]; [destruct s; reflexivity|].
  change (String.prefix (String c u) (String c u ++ s))
    with (if ascii_dec c c then String.prefix u (u ++ s) else false).
  destruct (ascii_dec c c); [exact IH|contradiction].
Qed.

Lemma remove_from_skip (old u s : string) :
  remove_from old (String.length u) (u ++ s) = remove_from old 0 s.
Proof.
  induction u as [|c u IH]; [reflexivity|]. exact IH.
Qed.

Lemma remove_from_length (old s : string) :
  forall skip, (String.length (remove_from old skip s) <= String.length s)%nat.
Proof.
  induction s as [|c s IH]; intros skip; [reflexivity|].
  cbn [remove_from]. destruct skip as [|k].
  - destruct (String.prefix old (String c s)).
    + specialize (IH (String.length old - 1)%nat). simpl. lia.
    + specialize (IH 0%nat). simpl. lia.
  - specialize (IH k). simpl. lia.
Qed.

Lemma remove_from_absent (old s : string) :
  occurs old s = false -> remove_from old 0 s = s.
Proof.
  induction s as [|c s IH]; [reflexivity|].
  cbn [occurs remove_from]. intros Hocc.
  apply orb_false_iff in Hocc as [-> Hrest].
  rewrite (IH Hrest). reflexivity.
Qed.

Lemma remove_from_present (old s : string) :
  old <> "" -> occurs old s = true ->
  (String.length (remove_from old 0 s) < String.length s)%nat.
Proof.
  intros Hold. induction s as [|c s IH].
  - destruct old; [contradiction|discriminate].
  - cbn [occurs remove_from].
    destruct (String.prefix old (String c s)).
    + intros _. pose proof (remove_from_length old s (String.length old - 1)).
      simpl. lia.
    + intros Hocc. specialize (IH Hocc). simpl. lia.
Qed.

Lemma str_remove_strip (c : ascii) (old s : string) :
  str_remove (String c old) (String c old ++ s) = str_remove (String c old) s.
Proof.
  unfold str_remove. change (String c old ++ s) with (String c (old ++ s)).
  cbn [remove_from].
  change (String c (old ++ s)) with (String c old ++ s).
  rewrite prefix_app_self.
  replace (String.length (String c old) - 1)%nat with (String.length old)
    by (simpl; lia).
  apply remove_from_skip.
Qed.

(** [s.replace(old, "")] for a non-empty [old].  An occurrence at the
    start is removed and the scan goes on behind it, a string without
    occurrence is returned as it is; so [old] followed by a name in which
    [old] does not occur gives back exactly the name. *)
Lemma str_remove_prefix (old s : string) :
  truthy old = true ->
  str_remove old (old ++ s) = str_remove old s
  /\ (occurs old s = false -> str_remove old s = s)
  /\ (occurs old s = false -> str_remove old (old ++ s) = s).
Proof.
  intros Hold. destruct old as [|c old]; [discriminate|].
  split; [apply str_remove_strip|]. split.
  - apply remove_from_absent.
  - intros Habsent. rewrite str_remove_strip. apply remove_from_absent, Habsent.
Qed.

Lemma string_length_app (a b : string) :
  String.length (a ++ b) = (String.length a + String.length b)%nat.
Proof.
  induction a as [|x a IH]; [reflexivity|].
  change (S (String.length (a ++ b)) = S (String.length a + String.length b)).
  rewrite IH. reflexivity.
Qed.

(** X17: the button data [template_<name>] does not select [<name>.pptx]
    when [template_] occurs in the name itself: every occurrence is removed,
    not only the leading one, so the file name looked up is strictly shorter
    than [<name>.pptx]. *)
Theorem template_choice_marker_in_name (callback : CallbackQuery) (name : string) :
  data callback = "template_" ++ name ->
  occurs "template_" name = true ->
  (String.length (chosen_template callback) < String.length (name ++ ".pptx"))%nat
  /\ chosen_template callback <> name ++ ".pptx".
Proof.
  intros Hdata Hocc.
  assert (Hlt : (String.length (chosen_template callback)
                 < String.length (name ++ ".pptx"))%nat).
  { unfold chosen_template. rewrite Hdata.
    change "template_" with (String "t" "emplate_") at 1 2.
    rewrite str_remove_strip, !string_length_app.
    pose proof (remove_from_present "template_" name ltac:(discriminate) Hocc) as H.
    unfold str_remove. simpl in *. lia. }
  split; [exact Hlt|]. intros Heq. rewrite Heq in Hlt. lia.
Qed.


(** ** Paths that end in a file name with an extension *)

(** Cutting a string that ends in a text without separator: the text is
    the end of the last piece. *)
Lemma split_on_app_tail (sep : ascii) (t s : string) :
  has_char sep t = false ->
  exists l u, split_on sep (s ++ t) = (l ++ [(u ++ t)%string])%list.
Proof.
  intros Ht. induction s as [|c s (l & u & IH)].
  - exists [], "". simpl. apply split_on_absent, Ht.
  - change (String c s ++ t) with (String c (s ++ t)). cbn [split_on].
    rewrite IH. destruct (Ascii.eqb c sep).
    + exists ("" :: l), u. reflexivity.
    + destruct l as [|p l]; simpl.
      * exists [], (String c u). reflexivity.
      * exists (String c p :: l), u. reflexivity.
Qed.

Lemma path_parts_pptx (s : string) :
  exists l u, path_parts (s ++ ".pptx") = (l ++ [(u ++ ".pptx")%string])%list.
Proof.
  destruct (split_on_app_tail "/" ".pptx" s eq_refl) as (l & u & Hsplit).
  unfold path_parts. rewrite Hsplit, List.filter_app. cbn [List.filter].
  assert (Hlen : (5 <= String.length (u ++ ".pptx"))%nat)
    by (rewrite string_length_app; simpl; lia).
  destruct (String.eqb_spec (u ++ ".pptx") "") as [E|_];
    [rewrite E in Hlen; simpl in Hlen; lia|].
  destruct (String.eqb_spec (u ++ ".pptx") ".") as [E|_];
    [rewrite E in Hlen; simpl in Hlen; lia|].
  eexists _, u. reflexivity.
Qed.

Lemma concat_last_length (sep v : string) (l : list string) :
  (String.length v <= String.length (String.concat sep (l ++ [v])))%nat.
Proof.
  induction l as [|x l IH]; [simpl; lia|].
  change ((x :: l) ++ [v])%list with (x :: (l ++ [v]))%list.
  destruct (l ++ [v])%list as [|y rest] eqn:E; [destruct l; discriminate|].
  change (String.concat sep (x :: y :: rest))
    with (x ++ sep ++ String.concat sep (y :: rest)).
  rewrite !string_length_app. lia.
Qed.

Lemma path_render_last_length (root v : string) (l : list string) :
  (String.length v <= String.length (path_render root (l ++ [v])))%nat.
Proof.
  assert (H : path_render root (l ++ [v]) = root ++ String.concat "/" (l ++ [v])).
  { unfold path_render. destruct root; [|reflexivity].
    destruct (l ++ [v])%list eqn:E; [destruct l; discriminate|reflexivity]. }
  rewrite H, string_length_app. pose proof (concat_last_length "/" v l). lia.
Qed.

(** A path joined from a name that ends in [.pptx] is neither the
    current directory nor the root. *)
Lemma Path_div_pptx (base s : string) :
  Path_div base (s ++ ".pptx") <> "." /\ Path_div base (s ++ ".pptx") <> "/".
Proof.
  assert (Hlen : (5 <= String.length (Path_div base (s ++ ".pptx")))%nat).
  { destruct (path_parts_pptx s) as (l & u & Hparts).
    assert (Hu : (5 <= String.length (u ++ ".pptx"))%nat)
      by (rewrite string_length_app; simpl; lia).
    unfold Path_div, Path_str. rewrite Hparts.
    destruct (String.prefix "/" (s ++ ".pptx")).
    - pose proof (path_render_last_length (path_root (s ++ ".pptx")) (u ++ ".pptx") l).
      lia.
    - rewrite app_assoc.
      pose proof (path_render_last_length (path_root base) (u ++ ".pptx")
                    (path_parts base ++ l)).
      lia. }
  split; intros E; rewrite E in Hlen; simpl in Hlen; lia.
Qed.

Lemma before_last_slash_absent (s : string) :
  has_char "/" s = false -> before_last_slash s = None.
Proof.
  induction s as [|c s IH]; [reflexivity|].
  cbn [has_char before_last_slash]. intros H. apply orb_false_iff in H as [Hc Hs].
  rewrite (IH Hs), Hc. reflexivity.
Qed.

(** The directory of the temporary deck is the download directory. *)
Lemma temp_path_parent (uid : Z) : path_parent (temp_path_of uid) = "downloads".
Proof.
  rewrite temp_path_shape. unfold path_parent.
  destruct (upload_name_single uid "temp.pptx" eq_refl) as (Hslash & _ & _).
  assert (Hrest : before_last_slash (pretty uid ++ "_temp.pptx") = None)
    by (apply before_last_slash_absent; exact Hslash).
  change ("downloads/" ++ pretty uid ++ "_temp.pptx")
    with (String "d" (String "o" (String "w" (String "n" (String "l" (String "o"
           (String "a" (String "d" (String "s" (String "/"
             (pretty uid ++ "_temp.pptx"))))))))))).
  cbn [before_last_slash]. rewrite Hrest. reflexivity.
Qed.

(** ** Callbacks *)

(** All runs of [handle_template_choice]. *)
Lemma handle_template_choice_run (load_pptx : list byte -> option Presentation)
    (save_pptx : Presentation -> list byte) (storage_accepts : bool)
    (callback : CallbackQuery) (c : Chat) :
  handle_template_choice load_pptx save_pptx storage_accepts callback c
  = match chat_files c !! Path_div Config.TEMPLATES_PATH (chosen_template callback) with
    | None => (said c (template_missing_text (chosen_template callback)) None, Ok tt)
    | Some Dir => (said c template_failed_text None, Ok tt)
    | Some (File bytes) =>
        match load_pptx bytes with
        | None => (said c template_failed_text None, Ok tt)
        | Some prs =>
            if storage_accepts then
              match chat_files c !! temp_path_of (callback_from_user_id callback) with
              | Some Dir => (said c template_failed_text None, Ok tt)
              | _ =>
                  (said {| chat_files :=
                             <[temp_path_of (callback_from_user_id callback)
                               := File (save_pptx prs)]> (chat_files c);
                           chat_answers := chat_answers c |}
                     template_chosen_text (Some get_edit_keyboard), Ok tt)
              end
            else
              match chat_files c !! "downloads" with
              | Some _ => (said c template_failed_text None, Ok tt)
              | None =>
                  (said c ("❌ Ошибка: [Errno 2] No such file or directory: '"
                           ++ temp_path_of (callback_from_user_id callback) ++ "'")
                     None, Ok tt)
              end
        end
    end.
Proof.
  unfold handle_template_choice, try_except, bind, lift, create_presentation.
  fold (chosen_template callback).
  fold (temp_path_of (callback_from_user_id callback)).
  assert (truthy (chosen_template callback) = true) as ->
    by (apply truthy_app_r; reflexivity).
  unfold Path_exists, Presentation_open.
  assert (Hat : entry_at (chat_files c)
                  (Path_div Config.TEMPLATES_PATH (chosen_template callback))
                = chat_files c !! Path_div Config.TEMPLATES_PATH (chosen_template callback)).
  { unfold chosen_template.
    destruct (Path_div_pptx Config.TEMPLATES_PATH
                (str_remove "template_" (data callback))) as [Hdot Hroot].
    apply entry_at_lookup; assumption. }
  rewrite Hat.
  destruct (chat_files c !! Path_div Config.TEMPLATES_PATH (chosen_template callback))
    as [[|bytes]|]; [reflexivity| |reflexivity].
  destruct (load_pptx bytes) as [prs|]; [|reflexivity].
  unfold Presentation_save.
  destruct storage_accepts.
  - destruct (chat_files c !! temp_path_of (callback_from_user_id callback))
      as [[|old]|]; reflexivity.
  - rewrite temp_path_parent, entry_at_lookup by discriminate.
    destruct (chat_files c !! "downloads") as [[|old]|]; reflexivity.
Qed.

(** X18: every button of the menu that [cmd_start] sends is handled by
    [handle_callback_queries] and recognised there: pressing it gives
    exactly one answer, which is not the invalid-command one and carries no
    keyboard, and changes no file.  In particular choosing a template from
    the menu offers no template to choose. *)
Theorem start_menu_recognised (load_pptx : list byte -> option Presentation)
    (save_pptx : Presentation -> list byte) (storage_accepts : bool)
    (callback : CallbackQuery) (c c0 : Chat) :
  In (data callback) (keyboard_data get_start_keyboard) ->
  (exists t, cmd_start c0 = (said c0 t (Some get_start_keyboard), Ok tt))
  /\ exists t,
       dispatch_callback_query load_pptx save_pptx storage_accepts callback c
       = (said c t None, Ok tt)
       /\ t <> answer_text invalid_command.
Proof.
  intros Hin. split; [eexists; reflexivity|].
  unfold dispatch_callback_query, handle_callback_queries.
  simpl in Hin. destruct Hin as [<-|[<-|[<-|[<-|[]]]]];
    (eexists; split; [reflexivity|discriminate]).
Qed.

(** X19: every button of the edit keyboard, the one sent after an upload
    or a template choice (add slide, add image, edit text, change design,
    save), is answered with the invalid-command message and nothing else
    happens: none of them reaches a handler that edits or saves a deck. *)
Theorem edit_menu_unrecognised (load_pptx : list byte -> option Presentation)
    (save_pptx : Presentation -> list byte) (storage_accepts : bool)
    (callback : CallbackQuery) (c : Chat) :
  In (data callback) (keyboard_data get_edit_keyboard) ->
  dispatch_callback_query load_pptx save_pptx storage_accepts callback c
  = (said c "Неверная команда. Попробуйте снова." None, Ok tt).
Proof.
  intros Hin. unfold dispatch_callback_query, handle_callback_queries.
  simpl in Hin. destruct Hin as [<-|[<-|[<-|[<-|[<-|[]]]]]]; reflexivity.
Qed.

(** X20: a callback query changes at most one path.  Whatever the
    callback data, the files and the slide library, every path other than
    the user's own temporary deck [downloads/<user id>_temp.pptx] holds
    after the dispatch what it held before. *)
Theorem dispatch_callback_query_other_paths (load_pptx : list byte -> option Presentation)
    (save_pptx : Presentation -> list byte) (storage_accepts : bool)
    (callback : CallbackQuery) (c : Chat) (p : string) :
  p <> "downloads/" ++ pretty (callback_from_user_id callback) ++ "_temp.pptx" ->
  chat_files (fst (dispatch_callback_query load_pptx save_pptx storage_accepts
                     callback c)) !! p
  = chat_files c !! p.
Proof.
  rewrite <- temp_path_shape. intros Hp.
  unfold dispatch_callback_query.
  destruct (String.prefix "template_" (data callback)).
  - rewrite handle_template_choice_run.
    destruct (chat_files c !! Path_div Config.TEMPLATES_PATH (chosen_template callback))
      as [[|bytes]|]; [reflexivity| |reflexivity].
    destruct (load_pptx bytes) as [prs|]; [|reflexivity].
    destruct storage_accepts.
    + destruct (chat_files c !! temp_path_of (callback_from_user_id callback))
        as [[|old]|]; [reflexivity| |];
        (simpl; apply lookup_insert_ne; congruence).
    + destruct (chat_files c !! "downloads") as [[|old]|]; reflexivity.
  - unfold handle_callback_queries.
    repeat (destruct (String.eqb (data callback) _)); reflexivity.
Qed.

Lemma string_app_assoc (a b c : string) : (a ++ b) ++ c = a ++ b ++ c.
Proof.
  induction a as [|x a IH]; [reflexivity|].
  change (String x ((a ++ b) ++ c) = String x (a ++ b ++ c)). f_equal. exact IH.
Qed.

Lemma chosen_template_of_button (callback : CallbackQuery) (name : string) :
  data callback = "template_" ++ name ->
  occurs "template_" name = false ->
  String.prefix "template_" (data callback) = true
  /\ chosen_template callback = name ++ ".pptx".
Proof.
  intros Hdata Habsent. rewrite Hdata. split; [apply prefix_app_self|].
  unfold chosen_template. rewrite Hdata.
  destruct (str_remove_prefix "template_" name eq_refl) as (_ & _ & Hname).
  rewrite (Hname Habsent). reflexivity.
Qed.

(** X21: a callback [template_<name>], for a name in which [template_]
    does not occur, whose file [<name>.pptx] is not in the template
    directory, is answered with the error text that names [<name>.pptx];
    nothing is written and the call returns normally. *)
Theorem template_choice_missing (load_pptx : list byte -> option Presentation)
    (save_pptx : Presentation -> list byte) (storage_accepts : bool)
    (callback : CallbackQuery) (c : Chat) (name : string) :
  data callback = "template_" ++ name ->
  occurs "template_" name = false ->
  chat_files c !! Path_div Config.TEMPLATES_PATH (name ++ ".pptx") = None ->
  dispatch_callback_query load_pptx save_pptx storage_accepts callback c
  = (said c ("❌ Ошибка: Шаблон " ++ name ++ ".pptx не найден.") None, Ok tt).
Proof.
  intros Hdata Habsent Hmissing.
  destruct (chosen_template_of_button callback name Hdata Habsent) as [Hroute Hname].
  unfold dispatch_callback_query. rewrite Hroute, handle_template_choice_run.
  rewrite Hname, Hmissing. unfold template_missing_text.
  rewrite string_app_assoc. reflexivity.
Qed.

(** X22: a callback [template_<name>], for a name in which [template_]
    does not occur, whose file [<name>.pptx] in the template directory holds
    a presentation, stores what the slide library writes for that
    presentation at [downloads/<user id>_temp.pptx], replacing a file that
    was there, and answers with the success text and the edit keyboard. *)
Theorem template_choice_saves (load_pptx : list byte -> option Presentation)
    (save_pptx : Presentation -> list byte)
    (callback : CallbackQuery) (c : Chat) (name : string) (bytes : list byte)
    (prs : Presentation) :
  data callback = "template_" ++ name ->
  occurs "template_" name = false ->
  chat_files c !! Path_div Config.TEMPLATES_PATH (name ++ ".pptx") = Some (File bytes) ->
  load_pptx bytes = Some prs ->
  chat_files c !! temp_path_of (callback_from_user_id callback) <> Some Dir ->
  dispatch_callback_query load_pptx save_pptx true callback c
  = ({| chat_files :=
          <["downloads/" ++ pretty (callback_from_user_id callback) ++ "_temp.pptx"
            := File (save_pptx prs)]> (chat_files c);
        chat_answers :=
          chat_answers c ++
          [{| answer_text := template_chosen_text;
              reply_markup := Some get_edit_keyboard |}] |}, Ok tt).
Proof.
  intros Hdata Habsent Hfile Hload Hnodir.
  destruct (chosen_template_of_button callback name Hdata Habsent) as [Hroute Hname].
  unfold dispatch_callback_query. rewrite Hroute, handle_template_choice_run.
  rewrite Hname, Hfile, Hload, <- temp_path_shape.
  destruct (chat_files c !! temp_path_of (callback_from_user_id callback))
    as [[|old]|]; [contradiction|reflexivity|reflexivity].
Qed.

(** X23: the temporary deck of a template choice and an upload named
    [temp.pptx] by the same user are one and the same path.  A successful
    template choice therefore replaces such an upload: afterwards the
    upload's path holds the saved template. *)
Theorem template_choice_replaces_upload (load_pptx : list byte -> option Presentation)
    (save_pptx : Presentation -> list byte)
    (callback : CallbackQuery) (c : Chat) (message : Message) (doc : Document)
    (bytes : list byte) (prs : Presentation) :
  callback_from_user_id callback = from_user_id message ->
  file_name doc = "temp.pptx" ->
  chat_files c !! Path_div Config.TEMPLATES_PATH (chosen_template callback)
  = Some (File bytes) ->
  load_pptx bytes = Some prs ->
  chat_files c !! upload_path message doc <> Some Dir ->
  upload_path message doc = temp_path_of (callback_from_user_id callback)
  /\ chat_files (fst (handle_template_choice load_pptx save_pptx true callback c))
       !! upload_path message doc
     = Some (File (save_pptx prs)).
Proof.
  intros Huid Hname Hfile Hload Hnodir.
  assert (Hpath : upload_path message doc = temp_path_of (callback_from_user_id callback)).
  { unfold upload_path, temp_path_of. rewrite Huid, Hname. reflexivity. }
  split; [exact Hpath|].
  rewrite handle_template_choice_run, Hfile, Hload, <- Hpath.
  destruct (chat_files c !! upload_path message doc) as [[|old]|];
    [contradiction| |]; simpl; apply lookup_insert_eq.
Qed.

(** X26: a template choice whose save the storage refuses.  When the
    download directory is there, the user gets the generic failure answer;
    when it is missing, the save raises [FileNotFoundError], which the
    handler takes for a missing template: the user is sent the operating
    system's message with the path of the temporary deck.  No file is
    changed in either case. *)
Theorem template_choice_save_refused (load_pptx : list byte -> option Presentation)
    (save_pptx : Presentation -> list byte)
    (callback : CallbackQuery) (c : Chat) (name : string) (bytes : list byte)
    (prs : Presentation) :
  data callback = "template_" ++ name ->
  occurs "template_" name = false ->
  chat_files c !! Path_div Config.TEMPLATES_PATH (name ++ ".pptx") = Some (File bytes) ->
  load_pptx bytes = Some prs ->
  (chat_files c !! "downloads" = Some Dir ->
   dispatch_callback_query load_pptx save_pptx false callback c
   = (said c "❌ Произошла ошибка при создании презентации" None, Ok tt))
  /\ (chat_files c !! "downloads" = None ->
      dispatch_callback_query load_pptx save_pptx false callback c
      = (said c ("❌ Ошибка: [Errno 2] No such file or directory: 'downloads/"
                 ++ pretty (callback_from_user_id callback) ++ "_temp.pptx'")
           None, Ok tt)).
Proof.
  intros Hdata Habsent Hfile Hload.
  destruct (chosen_template_of_button callback name Hdata Habsent) as [Hroute Hname].
  unfold dispatch_callback_query. rewrite Hroute, handle_template_choice_run.
  rewrite Hname, Hfile, Hload, temp_path_shape.
  split; intros ->; [reflexivity|].
  rewrite !string_app_assoc. reflexivity.
Qed.

(** ** Resolving a template name *)

Lemma split_on_app_sep (sep : ascii) (a b : string) :
  has_char sep a = false ->
  split_on sep (a ++ String sep b) = a :: split_on sep b.
Proof.
  induction a as [|c a IH]; intros Ha.
  - simpl. rewrite Ascii.eqb_refl. reflexivity.
  - cbn [has_char] in Ha. apply orb_false_iff in Ha as [Hc Ha].
    change (String c a ++ String sep b) with (String c (a ++ String sep b)).
    cbn [split_on]. rewrite Hc, (IH Ha). reflexivity.
Qed.

(** A plain file name written with a leading [./] or a trailing slash is
    joined to the same path as the name itself. *)
Lemma template_path_decorated (name : string) :
  file_name_like name = true ->
  Path_div Config.TEMPLATES_PATH ("./" ++ name) = "templates/" ++ name
  /\ Path_div Config.TEMPLATES_PATH (name ++ "/") = "templates/" ++ name.
Proof.
  intros Hname. pose proof Hname as Hlike. unfold file_name_like in Hname.
  apply andb_true_iff in Hname as [Hslash Hne].
  apply negb_true_iff in Hslash. apply negb_true_iff in Hne.
  apply orb_false_iff in Hne as [Hne _]. apply orb_false_iff in Hne as [Hne Hd].
  assert (Hparts : path_parts name = [name])
    by (apply path_parts_single; [exact Hslash|apply String.eqb_neq..]; assumption).
  assert (Hdot : path_parts ("./" ++ name) = [name]).
  { unfold path_parts in *.
    change ("./" ++ name) with ("." ++ String "/" name).
    rewrite (split_on_app_sep "/" "." name eq_refl). exact Hparts. }
  assert (Hslashed : path_parts (name ++ "/") = [name]).
  { unfold path_parts.
    rewrite (split_on_app_sep "/" name "" Hslash). cbn [split_on List.filter].
    rewrite Hne, Hd. reflexivity. }
  assert (Hrel : String.prefix "/" (name ++ "/") = false).
  { destruct name as [|c name]; [discriminate|].
    cbn [has_char] in Hslash. apply orb_false_iff in Hslash as [Hc _].
    change (String.prefix "/" (String c name ++ "/"))
      with (if ascii_dec "/"%char c then String.prefix "" (name ++ "/") else false).
    destruct (ascii_dec "/"%char c) as [<-|_]; [discriminate|reflexivity]. }
  unfold Path_div, Config.TEMPLATES_PATH. rewrite Hrel, Hdot, Hslashed.
  split; reflexivity.
Qed.

(** X25: how [create_presentation] resolves a template name.  An empty
    name is treated as no name: the blank deck is returned and the files are
    not consulted.  A name that starts with a slash is looked up where it
    points, outside the template directory.  A plain file name written with
    a leading [./] or with a trailing slash is looked up at
    [templates/<name>], as the name itself is, and the failure message
    names the template as it was written. *)
Theorem create_presentation_resolves (load_pptx : list byte -> option Presentation)
    (files : gmap string entry) (name : string) :
  create_presentation load_pptx files (Some "") = Ok Presentation_new
  /\ (String.prefix "/" name = true ->
      create_presentation load_pptx files (Some name)
      = if Path_exists files (Path_str name)
        then Presentation_open load_pptx files (Path_str name)
        else Raise (FileNotFoundError ("Шаблон " ++ name ++ " не найден.")))
  /\ (file_name_like name = true ->
      forall written, written = "./" ++ name \/ written = name ++ "/" ->
      create_presentation load_pptx files (Some written)
      = match files !! ("templates/" ++ name) with
        | Some (File data) =>
            match load_pptx data with
            | Some prs => Ok prs
            | None => Raise BadZipFile
            end
        | Some Dir => Raise IsADirectoryError
        | None => Raise (FileNotFoundError ("Шаблон " ++ written ++ " не найден."))
        end).
Proof.
  split; [reflexivity|]. split.
  - intros Habs. unfold create_presentation, Path_div. rewrite Habs.
    destruct name; [discriminate|reflexivity].
  - intros Hname written Hwritten.
    destruct (template_path_decorated name Hname) as [Hdot Hslashed].
    assert (Hpath : Path_div Config.TEMPLATES_PATH written = "templates/" ++ name)
      by (destruct Hwritten as [->| ->]; assumption).
    assert (Htruthy : truthy written = true).
    { destruct Hwritten as [->| ->]; [reflexivity|].
      destruct (template_path_plain name Hname) as [_ Ht].
      destruct name; [discriminate|reflexivity]. }
    unfold create_presentation. rewrite Htruthy, Hpath.
    unfold Path_exists, Presentation_open.
    rewrite entry_at_lookup by discriminate.
    destruct (files !! ("templates/" ++ name)) as [[|data]|]; reflexivity.
Qed.

(** ** Start-up directories *)

(** One [mkdir]: it succeeds exactly when no file is in the way, and then
    the path is a directory, the rest is untouched and a second call finds
    nothing to do. *)
Lemma mkdir_exist_ok_spec (path : string) (files : gmap string entry) :
  ((exists b, files !! path = Some (File b))
   /\ mkdir_exist_ok path files = (files, Raise OSError))
  \/ ((forall b, files !! path <> Some (File b))
      /\ exists files',
           mkdir_exist_ok path files = (files', Ok tt)
           /\ files' !! path = Some Dir
           /\ (forall p, p <> path -> files' !! p = files !! p)
           /\ mkdir_exist_ok path files' = (files', Ok tt)).
Proof.
  unfold mkdir_exist_ok. destruct (files !! path) as [[|b]|] eqn:Hp.
  - right. split; [discriminate|]. exists files. rewrite Hp. repeat split.
  - left. split; [exists b|]; reflexivity.
  - right. split; [discriminate|]. exists (<[path := Dir]> files).
    rewrite lookup_insert_eq. repeat split.
    intros p Hne. apply lookup_insert_ne. congruence.
Qed.

(** X24: the two [mkdir] calls of [Config] succeed exactly when neither
    [downloads] nor [templates] is an existing file.  When they succeed
    both paths are directories afterwards, every other path is as before,
    and running them again changes nothing. *)
Theorem Config_mkdirs_idempotent (files : gmap string entry) :
  (snd (Config_mkdirs files) = Ok tt
   <-> (forall b, files !! "downloads" <> Some (File b))
       /\ (forall b, files !! "templates" <> Some (File b)))
  /\ (snd (Config_mkdirs files) = Ok tt ->
      let files' := fst (Config_mkdirs files) in
      files' !! "downloads" = Some Dir
      /\ files' !! "templates" = Some Dir
      /\ (forall p, p <> "downloads" -> p <> "templates" -> files' !! p = files !! p)
      /\ Config_mkdirs files' = (files', Ok tt)).
Proof.
  unfold Config_mkdirs, Config.DOWNLOAD_PATH, Config.TEMPLATES_PATH.
  set (run := (mkdir_exist_ok "downloads" ;; mkdir_exist_ok "templates")%py).
  destruct (mkdir_exist_ok_spec "downloads" files)
    as [[[b1 Hb1] Hrun1]|[Hfree1 (f1 & Hrun1 & Hd1 & Hframe1 & Hagain1)]].
  { assert (Hrun : run files = (files, Raise OSError))
      by (unfold run, bind; rewrite Hrun1; reflexivity).
    rewrite Hrun. simpl. split; [|discriminate].
    split; [discriminate|]. intros [H _]. destruct (H b1 Hb1). }
  destruct (mkdir_exist_ok_spec "templates" f1)
    as [[[b2 Hb2] Hrun2]|[Hfree2 (f2 & Hrun2 & Ht2 & Hframe2 & Hagain2)]].
  { assert (Hrun : run files = (f1, Raise OSError))
      by (unfold run, bind; rewrite Hrun1, Hrun2; reflexivity).
    rewrite Hrun. simpl. split; [|discriminate].
    split; [discriminate|]. intros [_ H].
    rewrite Hframe1 in Hb2 by discriminate. destruct (H b2 Hb2). }
  assert (Hrun : run files = (f2, Ok tt))
    by (unfold run, bind; rewrite Hrun1, Hrun2; reflexivity).
  rewrite Hrun. simpl. split.
  - split; [intros _|reflexivity]. split; [exact Hfree1|].
    intros b Hb. apply (Hfree2 b). rewrite Hframe1 by discriminate. exact Hb.
  - intros _. split; [|split; [|split]].
    + rewrite Hframe2 by discriminate. exact Hd1.
    + exact Ht2.
    + intros p Hp1 Hp2. rewrite Hframe2, Hframe1 by assumption. reflexivity.
    + assert (Hd2 : mkdir_exist_ok "downloads" f2 = (f2, Ok tt)).
      { unfold mkdir_exist_ok. rewrite Hframe2, Hd1 by discriminate. reflexivity. }
      unfold run, bind. rewrite Hd2, Hagain2. reflexivity.
Qed.

(** ** Further statements at concrete inputs *)

Lemma add_content_slide_appends_witness :
  exists s,
    add_content_slide "Q1 Results" ["Revenue up 10%"; "Costs down 5%"] Presentation_new
    = (append_slide Presentation_new s, Ok tt)
    /\ slide_title s = Some "Q1 Results"
    /\ option_map text_frame (find_placeholder 1 (placeholders s))
       = Some (empty_paragraph
                 :: map bullet_paragraph ["Revenue up 10%"; "Costs down 5%"])
    /\ (forall tf, option_map text_frame (find_placeholder 1 (placeholders s)) = Some tf ->
          length tf = S (length ["Revenue up 10%"; "Costs down 5%"]))
    /\ (["Revenue up 10%"; "Costs down 5%"] = [] ->
          find_placeholder 1 (placeholders s)
          = find_placeholder 1 (placeholders (new_slide content_layout))).
Proof.
  apply (add_content_slide_appends "Q1 Results" ["Revenue up 10%"; "Costs down 5%"]
           Presentation_new content_layout); reflexivity.
Defined.

Lemma add_content_slide_without_body_witness :
  exists s,
    add_content_slide "Q1 Results" ["Revenue up 10%"] title_only_deck
    = (append_slide title_only_deck s, Raise KeyError)
    /\ slide_title s = Some "Q1 Results"
    /\ slide_count (append_slide title_only_deck s) = S (slide_count title_only_deck).
Proof.
  apply (add_content_slide_without_body "Q1 Results" ["Revenue up 10%"]
           title_only_deck title_only_layout); reflexivity.
Defined.

Lemma add_image_slide_places_image_witness :
  exists s,
    add_image_slide any_image sample_images "Chart" "chart.png" Presentation_new
    = (append_slide Presentation_new s, Ok tt)
    /\ slide_title s = Some "Chart"
    /\ pictures s = [{| pic_blob := ["P"%byte]; pic_left := 914400; pic_top := 914400 |}]
    /\ slide_count (append_slide Presentation_new s) = S (slide_count Presentation_new).
Proof.
  apply (add_image_slide_places_image any_image sample_images "Chart" "chart.png"
           ["P"%byte] Presentation_new title_only_layout); reflexivity.
Defined.

Lemma append_needs_layouts_witness :
  add_image_slide any_image sample_images "Chart" "chart.png" blank_first_deck
  = (blank_first_deck, Raise IndexError).
Proof.
  apply (proj2 (proj2 (append_needs_layouts any_image sample_images blank_first_deck))).
  simpl. lia.
Defined.

Lemma add_title_slide_writes_subtitle_witness :
  exists s,
    add_title_slide "Hello" "World" Presentation_new
    = (append_slide Presentation_new s, Ok tt)
    /\ slide_title s = Some "Hello"
    /\ placeholder_text 1 s = Some "World".
Proof.
  apply (add_title_slide_writes_subtitle "Hello" "World" Presentation_new
           title_slide_layout); reflexivity.
Defined.

Lemma add_title_slide_without_subtitle_placeholder_witness :
  exists s,
    add_title_slide "Hello" "World" title_only_deck
    = (append_slide title_only_deck s, Raise KeyError)
    /\ slide_title s = Some "Hello"
    /\ slide_count (append_slide title_only_deck s) = S (slide_count title_only_deck).
Proof.
  apply (add_title_slide_without_subtitle_placeholder "Hello" "World"
           title_only_deck title_only_layout); reflexivity.
Defined.

Lemma append_operations_compose_witness :
  exists s1 s2 s3,
    (add_title_slide "Report" "2024" ;;
     add_content_slide "Q1 Results" ["Revenue up 10%"] ;;
     add_image_slide any_image sample_images "Chart" "chart.png")%py Presentation_new
    = ({| slide_layouts := default_layouts;
          slides := slides Presentation_new ++ [s1; s2; s3] |}, Ok tt)
    /\ map slide_title [s1; s2; s3] = [Some "Report"; Some "Q1 Results"; Some "Chart"].
Proof.
  apply (append_operations_compose any_image sample_images Presentation_new
           "Report" "2024" "Q1 Results" "Chart" "chart.png" ["Revenue up 10%"]
           ["P"%byte]); reflexivity.
Defined.

Lemma upload_path_unique_witness :
  upload_path (sample_message (Some 1)) (sample_document (Some 1))
  <> upload_path (other_user_message (Some 1)) (sample_document (Some 1)).
Proof.
  apply (proj2 (upload_path_unique (sample_message (Some 1)) (other_user_message (Some 1))
                  (sample_document (Some 1)) (sample_document (Some 1))
                  eq_refl eq_refl)).
  left. simpl. lia.
Defined.

Lemma handle_document_without_size_witness :
  handle_document sample_reader broken_download (sample_message None) sample_world
  = (sample_world, Raise TypeError).
Proof.
  apply (proj1 (handle_document_without_size sample_reader broken_download
                  (sample_message None) sample_world) (sample_document None));
    reflexivity.
Defined.

Lemma handle_document_other_paths_witness :
  fs (fst (handle_document sample_reader broken_download
             (sample_message (Some 1000)) sample_world)) !! "templates"
  = fs sample_world !! "templates".
Proof.
  apply (handle_document_other_paths sample_reader broken_download
           (sample_message (Some 1000)) (sample_document (Some 1000))
           sample_world "templates"); [reflexivity|reflexivity|].
  vm_compute. discriminate.
Defined.

Lemma handle_document_stores_nothing_witness :
  handle_document sample_reader complete_download (sample_message (Some 1000)) sample_world
  = ({| fs := <[upload_path (sample_message (Some 1000)) (sample_document (Some 1000))
                := File []]> (fs sample_world);
        net := net sample_world
               ++ [GetFile (file_id (sample_document (Some 1000)));
                   DownloadFile "documents/file_1.pptx"];
        sent := sent sample_world ++ [ProcessingError] |}, Ok tt).
Proof.
  apply (handle_document_stores_nothing sample_reader complete_download
           (sample_message (Some 1000)) (sample_document (Some 1000)) sample_world
           1000 "documents/file_1.pptx");
    try reflexivity.
  - unfold Config.MAX_FILE_SIZE. lia.
  - vm_compute. discriminate.
Defined.

Lemma handle_document_size_advisory_witness :
  handle_document sample_reader complete_download
    {| from_user_id := 42;
       document := Some {| file_id := "F1"; file_name := "deck.pptx";
                           file_size := Some 1 |} |} sample_world
  = handle_document sample_reader complete_download
      {| from_user_id := 42;
         document := Some {| file_id := "F1"; file_name := "deck.pptx";
                             file_size := Some (500 * 1024 * 1024) |} |} sample_world.
Proof.
  apply (handle_document_size_advisory sample_reader complete_download 42
           "F1" "deck.pptx" 1 (500 * 1024 * 1024) sample_world);
    unfold Config.MAX_FILE_SIZE; lia.
Defined.

Lemma handle_document_fails_before_write_witness :
  handle_document sample_reader no_file_service (sample_message (Some 1000)) sample_world
  = ({| fs := fs sample_world;
        net := net sample_world ++ [GetFile (file_id (sample_document (Some 1000)))];
        sent := sent sample_world ++ [ProcessingError] |}, Ok tt).
Proof.
  apply (handle_document_fails_before_write sample_reader no_file_service
           (sample_message (Some 1000)) (sample_document (Some 1000)) sample_world 1000);
    [reflexivity|reflexivity|unfold Config.MAX_FILE_SIZE; lia|left; reflexivity].
Defined.

Lemma template_choice_marker_in_name_witness :
  (String.length (chosen_template (sample_callback "template_my_template_v2"))
   < String.length ("my_template_v2" ++ ".pptx"))%nat
  /\ chosen_template (sample_callback "template_my_template_v2")
     <> "my_template_v2" ++ ".pptx".
Proof.
  apply (template_choice_marker_in_name (sample_callback "template_my_template_v2")
           "my_template_v2"); reflexivity.
Defined.

Lemma start_menu_recognised_witness :
  (exists t, cmd_start sample_chat = (said sample_chat t (Some get_start_keyboard), Ok tt))
  /\ exists t,
       dispatch_callback_query sample_reader sample_writer true
         (sample_callback "choose_template") sample_chat
       = (said sample_chat t None, Ok tt)
       /\ t <> answer_text invalid_command.
Proof.
  apply (start_menu_recognised sample_reader sample_writer true
           (sample_callback "choose_template") sample_chat sample_chat).
  simpl. right. left. reflexivity.
Defined.

Lemma edit_menu_unrecognised_witness :
  dispatch_callback_query sample_reader sample_writer true
    (sample_callback "save") sample_chat
  = (said sample_chat "Неверная команда. Попробуйте снова." None, Ok tt).
Proof.
  apply (edit_menu_unrecognised sample_reader sample_writer true
           (sample_callback "save") sample_chat).
  simpl. do 4 right. left. reflexivity.
Defined.

Lemma dispatch_callback_query_other_paths_witness :
  chat_files (fst (dispatch_callback_query sample_reader sample_writer true
                     (sample_callback "template_business") sample_chat))
    !! "templates/business.pptx"
  = chat_files sample_chat !! "templates/business.pptx".
Proof.
  apply (dispatch_callback_query_other_paths sample_reader sample_writer true
           (sample_callback "template_business") sample_chat "templates/business.pptx").
  vm_compute. discriminate.
Defined.

Lemma template_choice_missing_witness :
  dispatch_callback_query sample_reader sample_writer true
    (sample_callback "template_modern") sample_chat
  = (said sample_chat ("❌ Ошибка: Шаблон " ++ "modern" ++ ".pptx не найден.") None,
     Ok tt).
Proof.
  apply (template_choice_missing sample_reader sample_writer true
           (sample_callback "template_modern") sample_chat "modern"); reflexivity.
Defined.

Lemma template_choice_saves_witness :
  dispatch_callback_query sample_reader sample_writer true
    (sample_callback "template_business") sample_chat
  = ({| chat_files :=
          <["downloads/" ++ pretty (callback_from_user_id (sample_callback "template_business"))
            ++ "_temp.pptx"
            := File (sample_writer blank_first_deck)]> (chat_files sample_chat);
        chat_answers :=
          chat_answers sample_chat ++
          [{| answer_text := template_chosen_text;
              reply_markup := Some get_edit_keyboard |}] |}, Ok tt).
Proof.
  apply (template_choice_saves sample_reader sample_writer
           (sample_callback "template_business") sample_chat "business"
           ["P"%byte; "K"%byte] blank_first_deck); try reflexivity.
  vm_compute. discriminate.
Defined.

Lemma template_choice_replaces_upload_witness :
  upload_path {| from_user_id := 42; document := None |}
    {| file_id := "F2"; file_name := "temp.pptx"; file_size := Some 10 |}
  = temp_path_of (callback_from_user_id (sample_callback "template_business"))
  /\ chat_files (fst (handle_template_choice sample_reader sample_writer true
                        (sample_callback "template_business") sample_chat))
       !! upload_path {| from_user_id := 42; document := None |}
            {| file_id := "F2"; file_name := "temp.pptx"; file_size := Some 10 |}
     = Some (File (sample_writer blank_first_deck)).
Proof.
  apply (template_choice_replaces_upload sample_reader sample_writer
           (sample_callback "template_business") sample_chat
           {| from_user_id := 42; document := None |}
           {| file_id := "F2"; file_name := "temp.pptx"; file_size := Some 10 |}
           ["P"%byte; "K"%byte] blank_first_deck); try reflexivity.
  vm_compute. discriminate.
Defined.

Lemma template_choice_save_refused_witness :
  dispatch_callback_query sample_reader sample_writer false
    (sample_callback "template_business") chat_without_downloads
  = (said chat_without_downloads
       ("❌ Ошибка: [Errno 2] No such file or directory: 'downloads/"
        ++ pretty (callback_from_user_id (sample_callback "template_business"))
        ++ "_temp.pptx'")
       None, Ok tt).
Proof.
  apply (proj2 (template_choice_save_refused sample_reader sample_writer
                  (sample_callback "template_business") chat_without_downloads
                  "business" ["P"%byte; "K"%byte] blank_first_deck
                  eq_refl eq_refl eq_refl eq_refl)).
  reflexivity.
Defined.

Lemma Config_mkdirs_idempotent_witness :
  let files' := fst (Config_mkdirs ∅) in
  files' !! "downloads" = Some Dir
  /\ files' !! "templates" = Some Dir
  /\ (forall p, p <> "downloads" -> p <> "templates" ->
        files' !! p = (∅ : gmap string entry) !! p)
  /\ Config_mkdirs files' = (files', Ok tt).
Proof.
  apply (proj2 (Config_mkdirs_idempotent ∅)). reflexivity.
Defined.

Lemma create_presentation_resolves_witness :
  create_presentation sample_reader sample_catalog (Some "./business.pptx")
  = Ok blank_first_deck.
Proof.
  apply (proj2 (proj2 (create_presentation_resolves sample_reader sample_catalog
                         "business.pptx")) eq_refl "./business.pptx").
  left. reflexivity.
Defined.
